(** * Email Sending API: the request pipeline of [app.py]

    A shallow embedding of the Flask application of [src/app.py]: the
    configuration validator, the SMTP relay client [send_email_smtp], the
    liveness endpoint [home] and the request handler [send_email], together
    with the parts of Python and of its libraries the handler leans on
    (string methods, truthiness of JSON values, exception dispatch,
    [uuid.uuid4], [datetime.isoformat]).

    Conventions.
    - A Python [str] is a [string]; its characters are the code points
      below 256, on which [str.strip], [str.lower] and [in] are modelled
      as CPython defines them.
    - The outside world (the SMTP server, the entropy pool, the clock) is
      an oracle [env]; what a call consumes of it is counted in [world]. *)

From Stdlib Require Import ZArith List Bool String Ascii Lia SpecFloat.
Import ListNotations.

Local Open Scope string_scope.
Local Open Scope Z_scope.

Set Implicit Arguments.

(* ================================================================= *)
(** ** Python strings *)

Module PyStr.

(** [str.isspace] on one character: the code points below 256 that
    CPython's [Py_UNICODE_ISSPACE] accepts. *)
Definition isspace (c : ascii) : bool :=
  let n := N_of_ascii c in
  ((9 <=? n) && (n <=? 13) || (28 <=? n) && (n <=? 32)
   || (n =? 133) || (n =? 160))%N.

(** Python truthiness of a [str]: [bool(s)] is [len(s) != 0]. *)
Definition truthy (s : string) : bool :=
  match s with EmptyString => false | String _ _ => true end.

Fixpoint lstrip (s : string) : string :=
  match s with
  | EmptyString => EmptyString
  | String c r => if isspace c then lstrip r else s
  end.

Fixpoint rstrip (s : string) : string :=
  match s with
  | EmptyString => EmptyString
  | String c r =>
      match rstrip r with
      | EmptyString => if isspace c then EmptyString else String c EmptyString
      | r' => String c r'
      end
  end.

(** [s.strip()] *)
Definition strip (s : string) : string := rstrip (lstrip s).

(** [sub in s] for two strings. *)
Fixpoint contains (sub s : string) : bool :=
  String.prefix sub s
  || match s with
     | EmptyString => false
     | String _ r => contains sub r
     end.

(** [str.lower] on one character: [A-Z] and the upper-case letters of
    the Latin-1 supplement (0xC0-0xDE but the multiplication sign). *)
Definition lower_char (c : ascii) : ascii :=
  let n := N_of_ascii c in
  if ((65 <=? n) && (n <=? 90)
      || (192 <=? n) && (n <=? 222) && negb (n =? 215))%N
  then ascii_of_N (n + 32) else c.

Fixpoint lower (s : string) : string :=
  match s with
  | EmptyString => EmptyString
  | String c r => String (lower_char c) (lower r)
  end.

(** Every character of [s] is white space. *)
Fixpoint blank (s : string) : bool :=
  match s with
  | EmptyString => true
  | String c r => isspace c && blank r
  end.

End PyStr.

(* ================================================================= *)
(** ** JSON values, as [json.loads] and [jsonify] see them *)

#[warnings="-register-all"]
Inductive json : Type :=
| JNull
| JBool (b : bool)
| JInt (n : Z)
| JFloat (f : spec_float)
| JString (s : string)
| JArray (items : list json)
| JObject (members : list (string * json)).

(** [bool(v)] for a value produced by [json.loads]. *)
Definition truthy (v : json) : bool :=
  match v with
  | JNull => false
  | JBool b => b
  | JInt n => negb (n =? 0)
  | JFloat (S754_zero _) => false
  | JFloat _ => true
  | JString s => PyStr.truthy s
  | JArray items => match items with [] => false | _ :: _ => true end
  | JObject members => match members with [] => false | _ :: _ => true end
  end.

(** Lookup in the items of a [dict]. *)
Fixpoint lookup (key : string) (members : list (string * json)) : option json :=
  match members with
  | [] => None
  | (k, v) :: rest => if String.eqb k key then Some v else lookup key rest
  end.

(* ================================================================= *)
(** ** Exceptions *)

(** The exception classes that can reach the two [try] statements of
    [app.py]: smtplib's hierarchy, the builtins the handler can raise
    itself, werkzeug's [BadRequest], and any further class [Other]
    deriving from [Exception] directly. *)
Inductive exc_class : Type :=
| Exception
| AttributeError | TypeError | LookupError | KeyError | ValueError
| OSError | ConnectionError | ConnectionRefusedError | TimeoutError | gaierror
| SMTPException
| SMTPServerDisconnected | SMTPResponseException | SMTPRecipientsRefused
| SMTPNotSupportedError
| SMTPSenderRefused | SMTPDataError | SMTPConnectError | SMTPHeloError
| SMTPAuthenticationError
| MessageError
| HTTPException | BadRequest
| Other (name : string).

Definition exc_class_eq_dec (a b : exc_class) : {a = b} + {a <> b}.
Proof. decide equality. apply string_dec. Defined.

(** The base class of each class ([None] for [Exception], the root of
    what [except Exception] catches). *)
Definition base (c : exc_class) : option exc_class :=
  match c with
  | Exception => None
  | AttributeError | TypeError | LookupError | ValueError | OSError
  | MessageError | HTTPException | Other _ => Some Exception
  | KeyError => Some LookupError
  | ConnectionError | TimeoutError | gaierror | SMTPException => Some OSError
  | ConnectionRefusedError => Some ConnectionError
  | SMTPServerDisconnected | SMTPResponseException | SMTPRecipientsRefused
  | SMTPNotSupportedError => Some SMTPException
  | SMTPSenderRefused | SMTPDataError | SMTPConnectError | SMTPHeloError
  | SMTPAuthenticationError => Some SMTPResponseException
  | BadRequest => Some HTTPException
  end.

Fixpoint mro_upto (fuel : nat) (c : exc_class) : list exc_class :=
  c :: match fuel with
       | O => []
       | S fuel' => match base c with
                    | None => []
                    | Some b => mro_upto fuel' b
                    end
       end.

(** The linearised ancestors of a class; no chain is longer than five. *)
Definition mro (c : exc_class) : list exc_class := mro_upto 8 c.

Definition issubclass (c d : exc_class) : bool :=
  existsb (fun a => if exc_class_eq_dec a d then true else false) (mro c).

(** A raised exception: its class and [str(e)]. *)
Record exn : Type := Exn { exn_class : exc_class; exn_str : string }.

(** [isinstance(e, d)] *)
Definition isinstance (e : exn) (d : exc_class) : bool :=
  issubclass (exn_class e) d.

(** The outcome of evaluating a Python expression. *)
Inductive result (A : Type) : Type :=
| Ok (a : A)
| Raise (e : exn).
Arguments Ok {A} a.
Arguments Raise {A} e.

Definition rbind {A B} (r : result A) (k : A -> result B) : result B :=
  match r with
  | Ok a => k a
  | Raise e => Raise e
  end.

Declare Scope result_scope.
Delimit Scope result_scope with result.
Notation "x <- c ;; k" := (rbind c (fun x => k))
  (at level 61, c at next level, right associativity) : result_scope.

(* ================================================================= *)
(** ** Attribute and item access on JSON values *)

(** The [AttributeError]s of a value without the method called. *)
Definition no_get : exn := Exn AttributeError "object has no attribute 'get'".
Definition no_strip : exn := Exn AttributeError "object has no attribute 'strip'".

(** [data.get(field)]: of the types [json.loads] produces only [dict]
    has a [get]; a missing key gives [None]. *)
Definition py_get (data : json) (field : string) : result json :=
  match data with
  | JObject members =>
      Ok match lookup field members with Some v => v | None => JNull end
  | _ => Raise no_get
  end.

(** [v.strip()]: only [str] has a [strip]. *)
Definition py_strip (v : json) : result string :=
  match v with
  | JString s => Ok (PyStr.strip s)
  | _ => Raise no_strip
  end.

(** [data[field]] *)
Definition py_getitem (data : json) (field : string) : result json :=
  match data with
  | JObject members =>
      match lookup field members with
      | Some v => Ok v
      | None => Raise (Exn KeyError field)
      end
  | _ => Raise (Exn TypeError "indices must be integers")
  end.

(* ================================================================= *)
(** ** Configuration *)

(** The module-level constants of [app.py], as loaded at process start. *)
Record settings : Type := Settings {
  GMAIL_EMAIL : string;
  GMAIL_APP_PASSWORD : string;
  SMTP_SERVER : string;
  SMTP_PORT : Z
}.

Definition config_missing_msg : string :=
  "Email configuration missing. Please set GMAIL_EMAIL and GMAIL_APP_PASSWORD environment variables.".

Definition validate_email_config (cfg : settings) : bool * string :=
  if negb (PyStr.truthy (GMAIL_EMAIL cfg))
     || negb (PyStr.truthy (GMAIL_APP_PASSWORD cfg))
  then (false, config_missing_msg)
  else (true, "OK").

(* ================================================================= *)
(** ** Fixed-width numerals, [datetime.isoformat], [uuid.uuid4] *)

Definition digit_char (d : Z) : ascii :=
  match String.get (Z.to_nat d) "0123456789abcdef" with
  | Some c => c
  | None => "?"%char
  end.

(** The [width] lowest digits of [x] in [radix], most significant first,
    in front of [acc]: what ['%0<width>d'] and ['%0<width>x'] print for
    [0 <= x < radix ^ width]. *)
Fixpoint fixed_digits (radix : Z) (width : nat) (x : Z) (acc : string) : string :=
  match width with
  | O => acc
  | S w => fixed_digits radix w (x / radix) (String (digit_char (x mod radix)) acc)
  end.

Definition dec (width : nat) (x : Z) : string := fixed_digits 10 width x "".
Definition hex (width : nat) (x : Z) : string := fixed_digits 16 width x "".

Record datetime : Type := Datetime {
  year : Z; month : Z; day : Z;
  hour : Z; minute : Z; second : Z; microsecond : Z
}.

(** [datetime.isoformat()] of a naive datetime: the fraction is printed
    only when the microseconds are not zero. *)
Definition isoformat (d : datetime) : string :=
  dec 4 (year d) ++ "-" ++ dec 2 (month d) ++ "-" ++ dec 2 (day d) ++ "T"
  ++ dec 2 (hour d) ++ ":" ++ dec 2 (minute d) ++ ":" ++ dec 2 (second d)
  ++ (if microsecond d =? 0 then "" else "." ++ dec 6 (microsecond d)).

(** [int.from_bytes(bs, 'big')] *)
Definition int_from_bytes (bs : list Byte.byte) : Z :=
  fold_left (fun acc b => acc * 256 + Z.of_N (Byte.to_N b)) bs 0.

(** The integer of [uuid.UUID(bytes=..., version=4)]: the variant bits
    62-63 are set to [10] and the version bits 76-79 to [0100]. *)
Definition uuid4_int (r : Z) : Z :=
  let i := Z.land r (Z.lnot (Z.shiftl 0xc000 48)) in
  let i := Z.lor i (Z.shiftl 0x8000 48) in
  let i := Z.land i (Z.lnot (Z.shiftl 0xf000 64)) in
  Z.lor i (Z.shiftl 4 76).

(** [hex[a:b]] and [hex[a:]] *)
Definition slice (a b : nat) (s : string) : string := String.substring a (b - a) s.
Definition slice_from (a : nat) (s : string) : string :=
  String.substring a (String.length s - a) s.

(** [str(u)] for a UUID of integer [i]. *)
Definition uuid_str (i : Z) : string :=
  let h := hex 32 i in
  slice 0 8 h ++ "-" ++ slice 8 12 h ++ "-" ++ slice 12 16 h ++ "-"
  ++ slice 16 20 h ++ "-" ++ slice_from 20 h.

(* ================================================================= *)
(** ** The outside world *)

(** What one SMTP conversation answers to each library call of
    [send_email_smtp]; [None] is a call that returns normally. *)
Record session : Type := Session {
  on_build : option exn;      (* MIMEMultipart, headers, attach *)
  on_connect : option exn;    (* smtplib.SMTP(SMTP_SERVER, SMTP_PORT) *)
  on_starttls : option exn;   (* server.starttls() *)
  on_login : option exn;      (* server.login(...) *)
  on_as_string : option exn;  (* msg.as_string() *)
  on_sendmail : option exn;   (* server.sendmail(...) *)
  on_quit : option exn        (* the QUIT of SMTP.__exit__ *)
}.

(** The oracles: draw [k] of the entropy pool byte by byte, reading [k]
    of the UTC clock, and the server's behaviour in conversation [k]. *)
Record env : Type := Env {
  urandom : nat -> nat -> Byte.byte;
  clock : nat -> datetime;
  smtp : nat -> session
}.

(** A message handed to [server.sendmail]. *)
Record mail : Type := Mail {
  mail_from : string; mail_to : string;
  mail_subject : string; mail_body : string
}.

(** What the process has consumed and produced so far. *)
Record world : Type := World {
  draws : nat;               (* calls of os.urandom *)
  ticks : nat;               (* readings of the clock *)
  relay_calls : nat;         (* invocations of send_email_smtp *)
  outbox : list mail;        (* messages the server accepted *)
  printed : list exn         (* tracebacks written by print *)
}.

(** Computations that read and change the world and may raise. *)
Definition M (A : Type) : Type := world -> result A * world.

Definition mret {A} (a : A) : M A := fun w => (Ok a, w).
Definition mraise {A} (e : exn) : M A := fun w => (Raise e, w).
Definition mbind {A B} (c : M A) (k : A -> M B) : M B :=
  fun w => match c w with
           | (Ok a, w') => k a w'
           | (Raise e, w') => (Raise e, w')
           end.
Definition lift {A} (r : result A) : M A := fun w => (r, w).

Declare Scope M_scope.
Delimit Scope M_scope with M.
Notation "x <- c ;; k" := (mbind c (fun x => k))
  (at level 61, c at next level, right associativity) : M_scope.
Notation "c ;; k" := (mbind c (fun _ => k))
  (at level 61, right associativity) : M_scope.

(** A library call that raises what the oracle says. *)
Definition call (o : option exn) : M unit :=
  match o with
  | Some e => mraise e
  | None => mret tt
  end.

(** [os.urandom(n)] *)
Definition os_urandom (eta : env) (n : nat) : M (list Byte.byte) :=
  fun w => (Ok (map (urandom eta (draws w)) (seq 0 n)),
            World (S (draws w)) (ticks w) (relay_calls w) (outbox w) (printed w)).

(** [uuid.uuid4()] *)
Definition uuid4 (eta : env) : M Z :=
  (bs <- os_urandom eta 16 ;; mret (uuid4_int (int_from_bytes bs)))%M.

(** [datetime.utcnow()] *)
Definition utcnow (eta : env) : M datetime :=
  fun w => (Ok (clock eta (ticks w)),
            World (draws w) (S (ticks w)) (relay_calls w) (outbox w) (printed w)).

(** The server accepts a message. *)
Definition deliver (m : mail) : M unit :=
  fun w => (Ok tt,
            World (draws w) (ticks w) (relay_calls w) (outbox w ++ [m]) (printed w)).

(** Entering [send_email_smtp]: the server's behaviour for this call. *)
Definition enter_relay (eta : env) : M session :=
  fun w => (Ok (smtp eta (relay_calls w)),
            World (draws w) (ticks w) (S (relay_calls w)) (outbox w) (printed w)).

(* ================================================================= *)
(** ** [try] / [except] and [with] *)

(** [try: c  except <classes>: ...]: the first clause whose class the
    exception is an instance of handles it; with none, it propagates. *)
Fixpoint dispatch {A} (clauses : list (exc_class * (exn -> M A))) (e : exn) : M A :=
  match clauses with
  | [] => mraise e
  | (c, h) :: rest => if isinstance e c then h e else dispatch rest e
  end.

Definition try_except {A} (c : M A) (clauses : list (exc_class * (exn -> M A))) : M A :=
  fun w => match c w with
           | (Ok a, w') => (Ok a, w')
           | (Raise e, w') => dispatch clauses e w'
           end.

(** [SMTP.__exit__]: QUIT is sent; a server that has already hung up
    ([SMTPServerDisconnected]) is ignored, any other failure is raised. *)
Definition smtp_exit (s : session) : M unit :=
  match on_quit s with
  | Some e => if isinstance e SMTPServerDisconnected then mret tt else mraise e
  | None => mret tt
  end.

(** [with smtplib.SMTP(...) as server: block]: [__exit__] runs when the
    block returns and when it raises; what [__exit__] raises replaces
    the exception in flight. *)
Definition with_smtp {A} (s : session) (block : M A) : M A :=
  (call (on_connect s) ;;
   fun w => match block w with
            | (r, w') => match smtp_exit s w' with
                         | (Ok _, w'') => (r, w'')
                         | (Raise e, w'') => (Raise e, w'')
                         end
            end)%M.

(* ================================================================= *)
(** ** The Mail Relay Client *)

(** The result triple [(success, message, email_id)]. *)
Definition send_result : Type := bool * string * option string.

Definition auth_prefix : string :=
  "SMTP Authentication failed. Check your Gmail credentials: ".
Definition recipient_prefix : string := "Invalid recipient email address: ".
Definition disconnected_prefix : string := "SMTP server connection lost: ".
Definition smtp_prefix : string := "SMTP error occurred: ".
Definition unexpected_prefix : string := "Unexpected error: ".

Definition failure (prefix : string) (e : exn) : M send_result :=
  mret (false, prefix ++ exn_str e, None).

(** The [except] clauses of [send_email_smtp], in source order. *)
Definition relay_clauses : list (exc_class * (exn -> M send_result)) :=
  [ (SMTPAuthenticationError, failure auth_prefix);
    (SMTPRecipientsRefused, failure recipient_prefix);
    (SMTPServerDisconnected, failure disconnected_prefix);
    (SMTPException, failure smtp_prefix);
    (Exception, failure unexpected_prefix) ].

Definition send_email_smtp (cfg : settings) (eta : env)
    (receiver_email subject body_text : string) : M send_result :=
  (s <- enter_relay eta ;;
   try_except
     (call (on_build s) ;;
      with_smtp s
        (call (on_starttls s) ;;
         call (on_login s) ;;
         call (on_as_string s) ;;
         call (on_sendmail s) ;;
         deliver (Mail (GMAIL_EMAIL cfg) receiver_email subject body_text) ;;
         u <- uuid4 eta ;;
         mret (true, "Email sent successfully", Some (uuid_str u))))
     relay_clauses)%M.

(* ================================================================= *)
(** ** The HTTP surface *)

(** What the view sees of the request: [request.is_json] and the body
    as [json.loads] would read it. *)
Inductive payload : Type :=
| Malformed           (* the bytes are not a JSON document *)
| Parsed (v : json).

Record request : Type := Request { is_json : bool; body : payload }.

Definition bad_request : exn :=
  Exn BadRequest "400 Bad Request: Failed to decode JSON object".

(** [request.get_json()], called once [is_json] holds: a body that does
    not parse makes [on_json_loading_failed] raise [BadRequest]. *)
Definition get_json (req : request) : M json :=
  match body req with
  | Parsed v => mret v
  | Malformed => mraise bad_request
  end.

Record response : Type := Response { status : Z; content : json }.

(** [jsonify(d), code] *)
Definition jsonify (members : list (string * json)) (code : Z) : response :=
  Response code (JObject members).

Definition json_of_option (o : option string) : json :=
  match o with
  | Some s => JString s
  | None => JNull
  end.

(** [GET /] *)
Definition home (cfg : settings) (eta : env) : M response :=
  let '(config_valid, config_msg) := validate_email_config cfg in
  (now <- utcnow eta ;;
   mret (jsonify [ ("service", JString "Email Sending API");
                   ("version", JString "1.0.0");
                   ("status", JString "running");
                   ("email_config_valid", JBool config_valid);
                   ("timestamp", JString (isoformat now)) ] 200))%M.

Definition required_fields : list string :=
  ["receiver_email"; "subject"; "body_text"].

(** [not data.get(field) or not data.get(field).strip()] *)
Definition field_missing (data : json) (field : string) : result bool :=
  (v <- py_get data field ;;
   if negb (truthy v) then Ok true
   else v' <- py_get data field ;;
        s <- py_strip v' ;;
        Ok (negb (PyStr.truthy s)))%result.

(** The [for field in required_fields] loop, [missing] being the list
    built so far. *)
Fixpoint scan_fields (data : json) (fields : list string) (missing : list string)
  : result (list string) :=
  match fields with
  | [] => Ok missing
  | field :: rest =>
      (m <- field_missing data field ;;
       scan_fields data rest (if m then missing ++ [field] else missing))%result
  end.

(** [data[field].strip()] *)
Definition stripped (data : json) (field : string) : result string :=
  (v <- py_getitem data field ;; py_strip v)%result.

Definition json_strings (l : list string) : json := JArray (map JString l).

(** The statements of [send_email] inside its [try]. *)
Definition send_email_try (cfg : settings) (eta : env) (req : request) : M response :=
  let '(config_valid, config_msg) := validate_email_config cfg in
  if negb config_valid then
    mret (jsonify [ ("error", JString "Server configuration error");
                    ("message", JString config_msg) ] 500)
  else if negb (is_json req) then
    mret (jsonify [ ("error", JString "Content-Type must be application/json") ] 400)
  else
    (data <- get_json req ;;
     if negb (truthy data) then
       mret (jsonify [ ("error", JString "Request body is required") ] 400)
     else
       missing_fields <- lift (scan_fields data required_fields []) ;;
       match missing_fields with
       | _ :: _ =>
           mret (jsonify [ ("error", JString "Missing required fields");
                           ("missing_fields", json_strings missing_fields);
                           ("required_fields", json_strings required_fields) ] 400)
       | [] =>
           receiver_email <- lift (stripped data "receiver_email") ;;
           subject <- lift (stripped data "subject") ;;
           body_text <- lift (stripped data "body_text") ;;
           if negb (PyStr.contains "@" receiver_email)
              || negb (PyStr.contains "." receiver_email) then
             mret (jsonify [ ("error", JString "Invalid email format");
                             ("message", JString "Please provide a valid email address") ] 400)
           else
             r <- send_email_smtp cfg eta receiver_email subject body_text ;;
             let '(success, message, email_id) := r in
             if success then
               now <- utcnow eta ;;
               mret (jsonify [ ("status", JString "success");
                               ("message", JString message);
                               ("email_id", json_of_option email_id);
                               ("sent_to", JString receiver_email);
                               ("sent_from", JString (GMAIL_EMAIL cfg));
                               ("subject", JString subject);
                               ("timestamp", JString (isoformat now)) ] 200)
             else if PyStr.contains "Authentication" message then
               mret (jsonify [ ("error", JString "Authentication failed");
                               ("message", JString message) ] 401)
             else if PyStr.contains "recipient" (PyStr.lower message) then
               mret (jsonify [ ("error", JString "Invalid recipient");
                               ("message", JString message) ] 400)
             else
               mret (jsonify [ ("error", JString "Email sending failed");
                               ("message", JString message) ] 502)
       end)%M.

(** [print(f"Unexpected error in send_email: {traceback.format_exc()}")] *)
Definition print_traceback (e : exn) : M unit :=
  fun w => (Ok tt,
            World (draws w) (ticks w) (relay_calls w) (outbox w) (printed w ++ [e])).

Definition internal_error : response :=
  jsonify [ ("error", JString "Internal server error");
            ("message", JString "An unexpected error occurred while processing your request") ]
          500.

(** [POST /send-email] *)
Definition send_email (cfg : settings) (eta : env) (req : request) : M response :=
  try_except (send_email_try cfg eta req)
    [ (Exception, fun e => (print_traceback e ;; mret internal_error)%M) ].

(* ================================================================= *)
(** ** Vocabulary of the statements *)

(** The five failure categories of the relay client, one per [except]
    clause of [send_email_smtp]. *)
Inductive category : Type :=
| AuthenticationFailure
| RecipientRejected
| ConnectionLost
| TransportError
| UnexpectedError.

Definition category_eqb (a b : category) : bool :=
  match a, b with
  | AuthenticationFailure, AuthenticationFailure
  | RecipientRejected, RecipientRejected
  | ConnectionLost, ConnectionLost
  | TransportError, TransportError
  | UnexpectedError, UnexpectedError => true
  | _, _ => false
  end.

Definition category_prefix (c : category) : string :=
  match c with
  | AuthenticationFailure => auth_prefix
  | RecipientRejected => recipient_prefix
  | ConnectionLost => disconnected_prefix
  | TransportError => smtp_prefix
  | UnexpectedError => unexpected_prefix
  end.

(** The category of an exception, by the most specific of the classes
    the relay client distinguishes. *)
Definition categorise (e : exn) : category :=
  if isinstance e SMTPAuthenticationError then AuthenticationFailure
  else if isinstance e SMTPRecipientsRefused then RecipientRejected
  else if isinstance e SMTPServerDisconnected then ConnectionLost
  else if isinstance e SMTPException then TransportError
  else UnexpectedError.

(** The first exception among the answers to a run of library calls. *)
Fixpoint first_raise (answers : list (option exn)) : option exn :=
  match answers with
  | [] => None
  | Some e :: _ => Some e
  | None :: rest => first_raise rest
  end.

(** What [SMTP.__exit__] raises in a conversation. *)
Definition quit_raises (s : session) : option exn :=
  match on_quit s with
  | Some e => if isinstance e SMTPServerDisconnected then None else Some e
  | None => None
  end.

(** The exception that reaches the [except] clauses of
    [send_email_smtp] in a conversation, if any. *)
Definition session_raises (s : session) : option exn :=
  match first_raise [on_build s; on_connect s] with
  | Some e => Some e
  | None =>
      match quit_raises s with
      | Some e => Some e
      | None => first_raise [on_starttls s; on_login s; on_as_string s; on_sendmail s]
      end
  end.

(** The server accepted the message: every call up to [sendmail]
    returned. *)
Definition accepted (s : session) : bool :=
  match first_raise [on_build s; on_connect s; on_starttls s; on_login s;
                     on_as_string s; on_sendmail s] with
  | None => true
  | Some _ => false
  end.

(** Draw [k] of the entropy pool, as the integer [uuid4] reads. *)
Definition draw (eta : env) (k : nat) : Z :=
  int_from_bytes (map (urandom eta k) (seq 0 16)).

(** The 122 bits of a draw that [uuid4] keeps. *)
Definition random_bits : Z := 0xffffffffffff0fff3fffffffffffffff.

(** The request carries a JSON object with the three required fields
    as strings. *)
Definition carries (req : request) (receiver_email subject body_text : string) : Prop :=
  is_json req = true /\
  exists members,
    body req = Parsed (JObject members) /\
    lookup "receiver_email" members = Some (JString receiver_email) /\
    lookup "subject" members = Some (JString subject) /\
    lookup "body_text" members = Some (JString body_text).

Definition nonblank (s : string) : Prop := PyStr.strip s <> "".

(** The shape check of the handler: an at sign and a dot. *)
Definition email_shaped (s : string) : bool :=
  PyStr.contains "@" s && PyStr.contains "." s.

(** A field counts as missing: absent, a falsy value ([null], [false],
    zero, an empty string, array or object), or a blank string. *)
Definition absent_or_blank (members : list (string * json)) (field : string) : bool :=
  match lookup field members with
  | None => true
  | Some (JString s) => PyStr.blank s
  | Some v => negb (truthy v)
  end.

(** A field is absent, or a string that is empty or only white space. *)
Definition absent_or_whitespace (members : list (string * json)) (field : string) : bool :=
  match lookup field members with
  | None => true
  | Some (JString s) => PyStr.blank s
  | Some _ => false
  end.

(** A field holds a truthy value that is not a string. *)
Definition ill_typed (members : list (string * json)) (field : string) : bool :=
  match lookup field members with
  | Some (JString _) => false
  | Some v => truthy v
  | None => false
  end.

Definition is_object (v : json) : bool :=
  match v with JObject _ => true | _ => false end.

Definition is_string (v : json) : bool :=
  match v with JString _ => true | _ => false end.

(** The world after one more traceback has been printed. *)
Definition after_print (w : world) (e : exn) : world :=
  World (draws w) (ticks w) (relay_calls w) (outbox w) (printed w ++ [e]).

(** The world after a relay call that the server accepted. *)
Definition after_delivery (w : world) (m : mail) : world :=
  World (S (draws w)) (ticks w) (S (relay_calls w)) (outbox w ++ [m]) (printed w).

(** The world after a relay call that failed before the server
    accepted anything. *)
Definition after_attempt (w : world) : world :=
  World (draws w) (ticks w) (S (relay_calls w)) (outbox w) (printed w).

Definition after_tick (w : world) : world :=
  World (draws w) (S (ticks w)) (relay_calls w) (outbox w) (printed w).

(** ** A concrete deployment, for the examples *)

Module Fixture.

Definition cfg : settings := Settings "sender@example.org" "app-password" "smtp.gmail.com" 587.
Definition cfg_no_password : settings := Settings "sender@example.org" "" "smtp.gmail.com" 587.

Definition quiet : session := Session None None None None None None None.

Definition refusing (e : exn) : session :=
  Session None None None (Some e) None None None.

Definition noon : datetime := Datetime 2024 3 9 12 0 0 0.

(** Draw [k] is sixteen bytes of value [k]. *)
Definition bytes_of_index (k j : nat) : Byte.byte :=
  match Byte.of_N (N.of_nat k) with
  | Some b => b
  | None => Byte.x00
  end.

Definition eta : env := Env bytes_of_index (fun _ => noon) (fun _ => quiet).

Definition eta_refusing (e : exn) : env :=
  Env bytes_of_index (fun _ => noon) (fun _ => refusing e).

Definition w0 : world := World 0 0 0 [] [].

Definition post (v : json) : request := Request true (Parsed v).

Definition letter (receiver_email : string) : json :=
  JObject [ ("receiver_email", JString receiver_email);
            ("subject", JString " Hello ");
            ("body_text", JString "How are you?") ].

End Fixture.

(** ** Reading identifiers back *)

(** The value of a hexadecimal digit. *)
Definition digit_value (c : ascii) : Z :=
  let n := Z.of_N (N_of_ascii c) in
  if (48 <=? n) && (n <=? 57) then n - 48
  else if (97 <=? n) && (n <=? 102) then n - 87
  else 0.

(** The number a string of hexadecimal digits denotes, after [a]. *)
Fixpoint undigits (s : string) (a : Z) : Z :=
  match s with
  | EmptyString => a
  | String c r => undigits r (a * 16 + digit_value c)
  end.

(** The layout of [str(uuid)] over its 32 hexadecimal digits. *)
Definition dashed (h : string) : string :=
  slice 0 8 h ++ "-" ++ slice 8 12 h ++ "-" ++ slice 12 16 h ++ "-"
  ++ slice 16 20 h ++ "-" ++ slice_from 20 h.

(** The digits of a dashed identifier. *)
Definition undashed (u : string) : string :=
  slice 0 8 u ++ slice 9 13 u ++ slice 14 18 u ++ slice 19 23 u ++ slice_from 24 u.

(** The member [key] of a response body. *)
Definition member (key : string) (resp : response) : option json :=
  match content resp with
  | JObject members => lookup key members
  | _ => None
  end.

(* ================================================================= *)
(** ** The handler as a decision followed by a relay call *)

(** How far a request gets in [send_email]. *)
Inductive verdict : Type :=
| ConfigInvalid
| NotJson
| Unparseable
| NoBody
| Violation (e : exn)
| Missing (fields : list string)
| BadShape
| Relay (receiver_email subject body_text : string).

(** The statements of [send_email] up to the call of the relay, read
    as a function of the configuration and the request. *)
Definition verdict_of (cfg : settings) (req : request) : verdict :=
  if negb (fst (validate_email_config cfg)) then ConfigInvalid
  else if negb (is_json req) then NotJson
  else
    match body req with
    | Malformed => Unparseable
    | Parsed data =>
        if negb (truthy data) then NoBody
        else
          match scan_fields data required_fields [] with
          | Raise e => Violation e
          | Ok (f :: rest) => Missing (f :: rest)
          | Ok [] =>
              match stripped data "receiver_email",
                    stripped data "subject",
                    stripped data "body_text" with
              | Ok r, Ok s, Ok b =>
                  if negb (PyStr.contains "@" r) || negb (PyStr.contains "." r)
                  then BadShape else Relay r s b
              | Raise e, _, _ => Violation e
              | Ok _, Raise e, _ => Violation e
              | Ok _, Ok _, Raise e => Violation e
              end
          end
    end.

(** The answer to a relay failure with the given message. *)
Definition failure_response (message : string) : response :=
  if PyStr.contains "Authentication" message then
    jsonify [ ("error", JString "Authentication failed");
              ("message", JString message) ] 401
  else if PyStr.contains "recipient" (PyStr.lower message) then
    jsonify [ ("error", JString "Invalid recipient");
              ("message", JString message) ] 400
  else
    jsonify [ ("error", JString "Email sending failed");
              ("message", JString message) ] 502.

(** The answer to a successful relay call. *)
Definition success_body (cfg : settings) (receiver_email subject id : string)
    (now : datetime) : response :=
  jsonify [ ("status", JString "success");
            ("message", JString "Email sent successfully");
            ("email_id", JString id);
            ("sent_to", JString receiver_email);
            ("sent_from", JString (GMAIL_EMAIL cfg));
            ("subject", JString subject);
            ("timestamp", JString (isoformat now)) ] 200.

Definition config_error : response :=
  jsonify [ ("error", JString "Server configuration error");
            ("message", JString config_missing_msg) ] 500.

(** The message the relay client builds for an exception. *)
Definition relay_message (e : exn) : string :=
  category_prefix (categorise e) ++ exn_str e.

(** A string that [strip] leaves alone. *)
Definition trimmed (s : string) : Prop := PyStr.strip s = s.

(* ================================================================= *)
(** ** Loading the configuration *)

(** [config(key, default=...)] of python-decouple without a cast: the
    process environment first, then the repository (the [.env] or
    [settings.ini] file), then the default.  A variable set to the
    empty string is found, and is the empty string. *)
Definition config (environ repository : string -> option string)
    (key default : string) : string :=
  match environ key with
  | Some v => v
  | None => match repository key with
            | Some v => v
            | None => default
            end
  end.

(** The four module constants; [port] is [SMTP_PORT] after its [int]
    cast. *)
Definition load_settings (environ repository : string -> option string)
    (port : Z) : settings :=
  Settings (config environ repository "GMAIL_EMAIL" "hadibadami14@gmail.com")
           (config environ repository "GMAIL_APP_PASSWORD" "")
           (config environ repository "SMTP_SERVER" "smtp.gmail.com")
           port.

(** What the environment or the repository holds for a key. *)
Definition found (environ repository : string -> option string) (key : string)
  : option string :=
  match environ key with
  | Some v => Some v
  | None => repository key
  end.

(** A deployment that sets the app password and nothing else, and has
    no settings file. *)
Definition password_only (key : string) : option string :=
  if String.eqb key "GMAIL_APP_PASSWORD" then Some "app-password" else None.

Definition no_file (key : string) : option string := None.

(* ================================================================= *)
(** * Properties *)

Unset Implicit Arguments.

(** ** Sanity checks of the embedding on concrete inputs *)

Example strip_ex : PyStr.strip "  a b  " = "a b".
Proof. reflexivity. Qed.

Example contains_ex : PyStr.contains "recipient" (PyStr.lower "Invalid Recipient x") = true.
Proof. reflexivity. Qed.

Example isoformat_ex :
  isoformat (Datetime 2024 3 9 7 5 0 1250) = "2024-03-09T07:05:00.001250".
Proof. reflexivity. Qed.

Example uuid_str_ex :
  uuid_str (uuid4_int 0) = "00000000-0000-4000-8000-000000000000".
Proof. reflexivity. Qed.

Example uuid_str_ex_ones :
  uuid_str (uuid4_int (2 ^ 128 - 1)) = "ffffffff-ffff-4fff-bfff-ffffffffffff".
Proof. reflexivity. Qed.

Example home_without_password :
  home Fixture.cfg_no_password Fixture.eta Fixture.w0 =
  (Ok (Response 200
         (JObject [ ("service", JString "Email Sending API");
                    ("version", JString "1.0.0");
                    ("status", JString "running");
                    ("email_config_valid", JBool false);
                    ("timestamp", JString "2024-03-09T12:00:00") ])),
   World 0 1 0 [] []).
Proof. reflexivity. Qed.

Example send_without_password :
  send_email Fixture.cfg_no_password Fixture.eta
    (Fixture.post (Fixture.letter "ann@example.org")) Fixture.w0 =
  (Ok (Response 500
         (JObject [ ("error", JString "Server configuration error");
                    ("message", JString config_missing_msg) ])),
   Fixture.w0).
Proof. reflexivity. Qed.

(** An empty object is a falsy body: it is answered by the body check,
    before the fields are looked at. *)
Example empty_object_is_no_body :
  send_email Fixture.cfg Fixture.eta (Fixture.post (JObject [])) Fixture.w0 =
  (Ok (Response 400 (JObject [ ("error", JString "Request body is required") ])),
   Fixture.w0).
Proof. reflexivity. Qed.

(** A refused TCP connection is not one of smtplib's exceptions. *)
Example connection_refused :
  send_email Fixture.cfg
    (Env Fixture.bytes_of_index (fun _ => Fixture.noon)
       (fun _ => Session None (Some (Exn ConnectionRefusedError "[Errno 111] Connection refused"))
                   None None None None None))
    (Fixture.post (Fixture.letter "ann@example.org")) Fixture.w0 =
  (Ok (Response 502
         (JObject [ ("error", JString "Email sending failed");
                    ("message",
                     JString "Unexpected error: [Errno 111] Connection refused") ])),
   World 0 0 1 [] []).
Proof. reflexivity. Qed.

(** The server accepts the message and then fails the QUIT that leaving
    the [with] block sends: the send is reported as failed although the
    message is in the outbox. *)
Example quit_fails_after_delivery :
  send_email Fixture.cfg
    (Env Fixture.bytes_of_index (fun _ => Fixture.noon)
       (fun _ => Session None None None None None None
                   (Some (Exn SMTPResponseException "(421, b'closing')"))))
    (Fixture.post (Fixture.letter "ann@example.org")) Fixture.w0 =
  (Ok (Response 502
         (JObject [ ("error", JString "Email sending failed");
                    ("message", JString "SMTP error occurred: (421, b'closing')") ])),
   World 1 0 1 [Mail "sender@example.org" "ann@example.org" "Hello" "How are you?"] []).
Proof. reflexivity. Qed.
(** ** Strings *)

Section StringFacts.

Lemma truthy_empty (s : string) : PyStr.truthy s = false <-> s = "".
Proof. destruct s; simpl; split; congruence. Qed.

Lemma rstrip_blank (s : string) : PyStr.rstrip s = "" <-> PyStr.blank s = true.
Proof.
  induction s as [|c r IH]; simpl.
  - tauto.
  - destruct (PyStr.rstrip r) eqn:Er.
    + destruct (PyStr.isspace c); simpl.
      * tauto.
      * split; discriminate.
    + split; [discriminate|].
      rewrite andb_true_iff. intros [_ Hr]. apply IH in Hr. discriminate.
Qed.

Lemma blank_lstrip (s : string) : PyStr.blank (PyStr.lstrip s) = PyStr.blank s.
Proof.
  induction s as [|c r IH]; simpl; [reflexivity|].
  destruct (PyStr.isspace c) eqn:Ec; simpl; [assumption|].
  now rewrite Ec.
Qed.

(** A string strips to the empty string exactly when it is blank. *)
Lemma strip_truthy (s : string) :
  PyStr.truthy (PyStr.strip s) = negb (PyStr.blank s).
Proof.
  unfold PyStr.strip. rewrite <- (blank_lstrip s).
  destruct (PyStr.blank (PyStr.lstrip s)) eqn:Eb.
  - apply rstrip_blank in Eb. now rewrite Eb.
  - destruct (PyStr.rstrip (PyStr.lstrip s)) eqn:Er; [|reflexivity].
    apply rstrip_blank in Er. congruence.
Qed.

End StringFacts.

(** ** Substrings and case *)

Section Substrings.

Lemma prefix_app (sub s : string) :
  String.prefix sub s = true <-> exists post, s = sub ++ post.
Proof.
  revert sub. induction s as [|c s IH]; intros sub.
  - destruct sub as [|a sub]; cbn.
    + split; [exists ""; reflexivity | reflexivity].
    + split; [discriminate | intros [post H]; discriminate].
  - destruct sub as [|a sub]; cbn.
    + split; [intros _; exists (String c s); reflexivity | reflexivity].
    + destruct (ascii_dec a c) as [->|Hne].
      * rewrite IH. split; intros [post H]; exists post.
        -- now rewrite H.
        -- now injection H.
      * split; [discriminate|]. intros [post H]. injection H as H1 _. congruence.
Qed.

(** [sub in s] holds exactly when [s] is [sub] between two strings. *)
Lemma contains_app (sub s : string) :
  PyStr.contains sub s = true <-> exists pre post, s = pre ++ sub ++ post.
Proof.
  induction s as [|c s IH]; cbn [PyStr.contains]; rewrite orb_true_iff, prefix_app.
  - split.
    + intros [[post H]|H]; [|discriminate]. exists "", post. exact H.
    + intros (pre & post & H). left. destruct pre; [now exists post | discriminate].
  - rewrite IH. split.
    + intros [[post H]|(pre & post & H)].
      * exists "", post. exact H.
      * exists (String c pre), post. cbn. now rewrite H.
    + intros (pre & post & H). destruct pre as [|a pre]; cbn in H.
      * left. now exists post.
      * right. injection H as _ H. now exists pre, post.
Qed.

Lemma lower_app (a b : string) :
  PyStr.lower (a ++ b) = PyStr.lower a ++ PyStr.lower b.
Proof. induction a as [|c a IH]; cbn; [reflexivity | now rewrite IH]. Qed.

Lemma lower_split (m a b : string) :
  PyStr.lower m = a ++ b ->
  exists a' b', m = a' ++ b' /\ PyStr.lower a' = a /\ PyStr.lower b' = b.
Proof.
  revert m. induction a as [|c a IH]; intros m H.
  - exists "", m. auto.
  - destruct m as [|d m]; [discriminate|]. cbn in H. injection H as Hc H.
    destruct (IH m H) as (a' & b' & -> & Ha & Hb).
    exists (String d a'), b'. cbn. now rewrite Hc, Ha.
Qed.

(** [sub in s.lower()] holds exactly when some stretch of [s] reads
    [sub] once lowered: containment up to case. *)
Lemma contains_lower (sub s : string) :
  PyStr.contains sub (PyStr.lower s) = true <->
  exists pre mid post, s = pre ++ mid ++ post /\ PyStr.lower mid = sub.
Proof.
  rewrite contains_app. split.
  - intros (pre & post & H).
    destruct (lower_split _ _ _ H) as (pre' & rest & -> & _ & Hrest).
    destruct (lower_split _ _ _ Hrest) as (mid & post' & -> & Hmid & _).
    now exists pre', mid, post'.
  - intros (pre & mid & post & -> & <-).
    exists (PyStr.lower pre), (PyStr.lower post). now rewrite !lower_app.
Qed.

End Substrings.

(** ** Exceptions *)

Lemma isinstance_Exception (e : exn) : isinstance e Exception = true.
Proof. destruct e as [c t]. destruct c; reflexivity. Qed.

Lemma isinstance_self (c : exc_class) (t : string) : isinstance (Exn c t) c = true.
Proof.
  unfold isinstance, issubclass, mro. simpl.
  destruct (exc_class_eq_dec c c); [reflexivity | congruence].
Qed.

(** ** The relay client *)

Section Relay.

Variable cfg : settings.
Variable eta : env.

Lemma dispatch_relay (e : exn) (w : world) :
  dispatch relay_clauses e w =
  (Ok (false, category_prefix (categorise e) ++ exn_str e, None), w).
Proof.
  unfold relay_clauses, categorise. cbn [dispatch].
  destruct (isinstance e SMTPAuthenticationError); [reflexivity|].
  destruct (isinstance e SMTPRecipientsRefused); [reflexivity|].
  destruct (isinstance e SMTPServerDisconnected); [reflexivity|].
  destruct (isinstance e SMTPException); [reflexivity|].
  rewrite isinstance_Exception. reflexivity.
Qed.

Lemma send_email_smtp_run (receiver_email subject body_text : string) (w : world) :
  let s := smtp eta (relay_calls w) in
  let m := Mail (GMAIL_EMAIL cfg) receiver_email subject body_text in
  send_email_smtp cfg eta receiver_email subject body_text w =
  match session_raises s with
  | None =>
      (Ok (true, "Email sent successfully",
           Some (uuid_str (uuid4_int (draw eta (draws w))))),
       after_delivery w m)
  | Some e =>
      (Ok (false, category_prefix (categorise e) ++ exn_str e, None),
       if accepted s then after_delivery w m else after_attempt w)
  end.
Proof.
  intros s m.
  unfold send_email_smtp, enter_relay, try_except, with_smtp, smtp_exit, mbind.
  cbn [relay_calls]. fold s.
  unfold session_raises, quit_raises, accepted. cbn [first_raise].
  destruct (on_build s) as [e|]; cbn [call mraise mret]; [apply dispatch_relay|].
  destruct (on_connect s) as [e|]; cbn [call mraise mret]; [apply dispatch_relay|].
  destruct (on_starttls s) as [e|]; cbn [call mraise mret].
  { destruct (on_quit s) as [q|]; [destruct (isinstance q SMTPServerDisconnected)|];
      cbn [mret mraise]; apply dispatch_relay. }
  destruct (on_login s) as [e|]; cbn [call mraise mret].
  { destruct (on_quit s) as [q|]; [destruct (isinstance q SMTPServerDisconnected)|];
      cbn [mret mraise]; apply dispatch_relay. }
  destruct (on_as_string s) as [e|]; cbn [call mraise mret].
  { destruct (on_quit s) as [q|]; [destruct (isinstance q SMTPServerDisconnected)|];
      cbn [mret mraise]; apply dispatch_relay. }
  destruct (on_sendmail s) as [e|]; cbn [call mraise mret].
  { destruct (on_quit s) as [q|]; [destruct (isinstance q SMTPServerDisconnected)|];
      cbn [mret mraise]; apply dispatch_relay. }
  unfold deliver, uuid4, os_urandom, mbind, mret.
  cbn [draws ticks relay_calls outbox printed].
  unfold draw, after_delivery.
  destruct (on_quit s) as [q|]; [destruct (isinstance q SMTPServerDisconnected)|];
    cbn [mret mraise].
  - reflexivity.
  - apply dispatch_relay.
  - reflexivity.
Qed.

End Relay.
(** ** The required-field loop *)

Section Fields.

Variable members : list (string * json).

Lemma field_missing_object (field : string) :
  field_missing (JObject members) field =
  if ill_typed members field then Raise no_strip
  else Ok (absent_or_blank members field).
Proof.
  unfold field_missing, ill_typed, absent_or_blank, py_get, rbind.
  destruct (lookup field members) as [v|]; [|reflexivity].
  destruct v as [|b|n|f|s|items|ms]; cbn [truthy negb py_strip is_string].
  - reflexivity.
  - destruct b; reflexivity.
  - destruct (n =? 0); reflexivity.
  - destruct f; reflexivity.
  - destruct (PyStr.truthy s) eqn:Es; cbn [negb].
    + now rewrite strip_truthy, negb_involutive.
    + apply truthy_empty in Es. now subst.
  - destruct items; reflexivity.
  - destruct ms; reflexivity.
Qed.

Lemma scan_fields_well_typed (fields missing : list string) :
  forallb (fun f => negb (ill_typed members f)) fields = true ->
  scan_fields (JObject members) fields missing =
  Ok (missing ++ filter (absent_or_blank members) fields)%list.
Proof.
  revert missing. induction fields as [|f rest IH]; intros missing H.
  - cbn. now rewrite app_nil_r.
  - cbn [forallb] in H. apply andb_true_iff in H as [Hf Hrest].
    apply negb_true_iff in Hf.
    cbn [scan_fields filter]. rewrite field_missing_object, Hf. cbn [rbind].
    rewrite IH by assumption.
    destruct (absent_or_blank members f); [|reflexivity].
    now rewrite <- app_assoc.
Qed.

Lemma scan_fields_ill_typed (fields missing : list string) (field : string) :
  In field fields -> ill_typed members field = true ->
  scan_fields (JObject members) fields missing = Raise no_strip.
Proof.
  revert missing. induction fields as [|f rest IH]; intros missing Hin Hbad.
  - destruct Hin.
  - cbn [scan_fields]. rewrite field_missing_object.
    destruct (ill_typed members f) eqn:Hf; [reflexivity|]. cbn [rbind].
    destruct Hin as [->|Hin]; [congruence|]. now apply IH.
Qed.

(** Passing the loop with nothing missing means every field is a
    string that is not blank. *)
Lemma scan_fields_passed (fields : list string) (field : string) :
  scan_fields (JObject members) fields [] = Ok [] ->
  In field fields ->
  exists s, lookup field members = Some (JString s) /\ PyStr.blank s = false.
Proof.
  intros Hscan Hin.
  destruct (forallb (fun f => negb (ill_typed members f)) fields) eqn:Hty.
  - rewrite scan_fields_well_typed in Hscan by assumption.
    injection Hscan as Hnil. cbn [app] in Hnil.
    assert (Hf : absent_or_blank members field = false).
    { destruct (absent_or_blank members field) eqn:E; [|reflexivity].
      assert (Hx : In field (filter (absent_or_blank members) fields))
        by (apply filter_In; auto).
      rewrite Hnil in Hx. destruct Hx. }
    rewrite forallb_forall in Hty. specialize (Hty field Hin).
    apply negb_true_iff in Hty.
    unfold absent_or_blank in Hf. unfold ill_typed in Hty.
    destruct (lookup field members) as [v|]; [|discriminate].
    destruct v; try (rewrite Hty in Hf; discriminate).
    eauto.
  - assert (Hex : exists f, In f fields /\ ill_typed members f = true).
    { clear Hscan Hin. induction fields as [|f rest IH]; [discriminate|].
      cbn [forallb] in Hty. apply andb_false_iff in Hty as [Hf|Hrest].
      - exists f. split; [now left|]. now apply negb_false_iff in Hf.
      - destruct (IH Hrest) as [g [Hg Hb]]. exists g. split; [now right|assumption]. }
    destruct Hex as [f [Hf Hb]].
    rewrite (scan_fields_ill_typed _ _ f Hf Hb) in Hscan. discriminate.
Qed.

End Fields.

Lemma scan_fields_not_object (data : json) (f : string) (rest missing : list string) :
  is_object data = false ->
  scan_fields data (f :: rest) missing =
  Raise no_get.
Proof.
  intros H. destruct data; try discriminate; reflexivity.
Qed.

(** ** The handler on a request that passes every check *)

Section Handler.

Variable cfg : settings.
Variable eta : env.

Lemma lookup_nonempty (field : string) (members : list (string * json)) (v : json) :
  lookup field members = Some v -> truthy (JObject members) = true.
Proof. destruct members; [discriminate | reflexivity]. Qed.

Lemma stripped_string (members : list (string * json)) (field s : string) :
  lookup field members = Some (JString s) ->
  stripped (JObject members) field = Ok (PyStr.strip s).
Proof. intros H. unfold stripped, py_getitem. now rewrite H. Qed.

Lemma nonblank_blank (s : string) : nonblank s <-> PyStr.blank s = false.
Proof.
  unfold nonblank. rewrite <- truthy_empty, strip_truthy.
  destruct (PyStr.blank s); cbn; split; congruence.
Qed.

Lemma scan_fields_filled (members : list (string * json)) (r0 s0 b0 : string) :
  lookup "receiver_email" members = Some (JString r0) ->
  lookup "subject" members = Some (JString s0) ->
  lookup "body_text" members = Some (JString b0) ->
  nonblank r0 -> nonblank s0 -> nonblank b0 ->
  scan_fields (JObject members) required_fields [] = Ok [].
Proof.
  intros Hr Hs Hb Nr Ns Nb.
  apply nonblank_blank in Nr, Ns, Nb.
  rewrite scan_fields_well_typed.
  - unfold required_fields. cbn [filter app]. unfold absent_or_blank.
    now rewrite Hr, Hs, Hb, Nr, Ns, Nb.
  - unfold required_fields. cbn [forallb]. unfold ill_typed.
    now rewrite Hr, Hs, Hb.
Qed.

(** A request that passes every check is answered from the relay's
    result alone. *)
Lemma send_email_valid (req : request) (r0 s0 b0 : string) (w w1 : world)
      (res : send_result) :
  fst (validate_email_config cfg) = true ->
  carries req r0 s0 b0 ->
  nonblank r0 -> nonblank s0 -> nonblank b0 ->
  email_shaped (PyStr.strip r0) = true ->
  send_email_smtp cfg eta (PyStr.strip r0) (PyStr.strip s0) (PyStr.strip b0) w
  = (Ok res, w1) ->
  send_email cfg eta req w =
  let '(success, message, email_id) := res in
  if success then
    (Ok (jsonify [ ("status", JString "success");
                   ("message", JString message);
                   ("email_id", json_of_option email_id);
                   ("sent_to", JString (PyStr.strip r0));
                   ("sent_from", JString (GMAIL_EMAIL cfg));
                   ("subject", JString (PyStr.strip s0));
                   ("timestamp", JString (isoformat (clock eta (ticks w1)))) ] 200),
     after_tick w1)
  else if PyStr.contains "Authentication" message then
    (Ok (jsonify [ ("error", JString "Authentication failed");
                   ("message", JString message) ] 401), w1)
  else if PyStr.contains "recipient" (PyStr.lower message) then
    (Ok (jsonify [ ("error", JString "Invalid recipient");
                   ("message", JString message) ] 400), w1)
  else
    (Ok (jsonify [ ("error", JString "Email sending failed");
                   ("message", JString message) ] 502), w1).
Proof.
  intros Hcfg (Hjson & members & Hbody & Hr & Hs & Hb) Nr Ns Nb Hshape Hrelay.
  unfold send_email, try_except, send_email_try.
  destruct (validate_email_config cfg) as [valid msg]. cbn [fst] in Hcfg. subst valid.
  cbn [negb]. rewrite Hjson. cbn [negb].
  unfold get_json. rewrite Hbody.
  unfold mbind at 1. cbn [mret].
  rewrite (lookup_nonempty _ _ _ Hr). cbn [negb].
  unfold mbind at 1, lift at 1.
  rewrite (scan_fields_filled _ _ _ _ Hr Hs Hb Nr Ns Nb).
  unfold mbind at 1, lift at 1. rewrite (stripped_string _ _ _ Hr).
  unfold mbind at 1, lift at 1. rewrite (stripped_string _ _ _ Hs).
  unfold mbind at 1, lift at 1. rewrite (stripped_string _ _ _ Hb).
  unfold email_shaped in Hshape. apply andb_true_iff in Hshape as [Hat Hdot].
  rewrite Hat, Hdot. cbn [negb orb].
  unfold mbind at 1. rewrite Hrelay.
  destruct res as [[success message] email_id].
  destruct success.
  - reflexivity.
  - destruct (PyStr.contains "Authentication" message); [reflexivity|].
    destruct (PyStr.contains "recipient" (PyStr.lower message)); reflexivity.
Qed.

End Handler.

(* ================================================================= *)
(** * The claims *)

(** C1.  A relay failure reaching the handler is answered by looking at
    its message: 401 "Authentication failed" when it contains
    "Authentication"; otherwise 400 "Invalid recipient" when its lower
    case contains "recipient"; otherwise 502 "Email sending failed".
    The body always carries the relay's message. *)
Theorem relay_failure_status
    (cfg : settings) (eta : env) (req : request) (r0 s0 b0 : string)
    (w w1 : world) (message : string) (email_id : option string) :
  fst (validate_email_config cfg) = true ->
  carries req r0 s0 b0 ->
  nonblank r0 -> nonblank s0 -> nonblank b0 ->
  email_shaped (PyStr.strip r0) = true ->
  send_email_smtp cfg eta (PyStr.strip r0) (PyStr.strip s0) (PyStr.strip b0) w
  = (Ok (false, message, email_id), w1) ->
  let '(code, label) :=
    if PyStr.contains "Authentication" message then (401, "Authentication failed")
    else if PyStr.contains "recipient" (PyStr.lower message) then (400, "Invalid recipient")
    else (502, "Email sending failed") in
  send_email cfg eta req w =
  (Ok (Response code (JObject [ ("error", JString label);
                                ("message", JString message) ])), w1).
Proof.
  intros Hcfg Hreq Nr Ns Nb Hshape Hrelay.
  rewrite (send_email_valid cfg eta req r0 s0 b0 w w1 _ Hcfg Hreq Nr Ns Nb Hshape Hrelay).
  destruct (PyStr.contains "Authentication" message); [reflexivity|].
  destruct (PyStr.contains "recipient" (PyStr.lower message)); reflexivity.
Qed.

Lemma relay_failure_status_witness :
  send_email Fixture.cfg
    (Fixture.eta_refusing (Exn SMTPAuthenticationError "(535, b'5.7.8 rejected')"))
    (Fixture.post (Fixture.letter " ann@example.org ")) Fixture.w0
  = (Ok (Response 401
           (JObject [ ("error", JString "Authentication failed");
                      ("message",
                       JString "SMTP Authentication failed. Check your Gmail credentials: (535, b'5.7.8 rejected')") ])),
     after_attempt Fixture.w0).
Proof.
  refine (relay_failure_status Fixture.cfg
            (Fixture.eta_refusing (Exn SMTPAuthenticationError "(535, b'5.7.8 rejected')"))
            (Fixture.post (Fixture.letter " ann@example.org "))
            " ann@example.org " " Hello " "How are you?"
            Fixture.w0 (after_attempt Fixture.w0)
            "SMTP Authentication failed. Check your Gmail credentials: (535, b'5.7.8 rejected')"
            None _ _ _ _ _ _ _).
  - reflexivity.
  - split; [reflexivity|]. eexists. repeat split; reflexivity.
  - vm_compute. discriminate.
  - vm_compute. discriminate.
  - vm_compute. discriminate.
  - reflexivity.
  - reflexivity.
Defined.

(** C7.  When the relay reports success the answer is 200 and its body
    has exactly the keys status, message, email_id, sent_to, sent_from,
    subject and timestamp: the trimmed recipient and subject, the
    configured sender, and the ISO format of the clock reading taken
    after the relay returned. *)
Theorem success_response
    (cfg : settings) (eta : env) (req : request) (r0 s0 b0 : string)
    (w w1 : world) (message : string) (email_id : option string) :
  fst (validate_email_config cfg) = true ->
  carries req r0 s0 b0 ->
  nonblank r0 -> nonblank s0 -> nonblank b0 ->
  email_shaped (PyStr.strip r0) = true ->
  send_email_smtp cfg eta (PyStr.strip r0) (PyStr.strip s0) (PyStr.strip b0) w
  = (Ok (true, message, email_id), w1) ->
  exists id,
    email_id = Some id /\
    message = "Email sent successfully" /\
    send_email cfg eta req w =
    (Ok (Response 200
           (JObject [ ("status", JString "success");
                      ("message", JString message);
                      ("email_id", JString id);
                      ("sent_to", JString (PyStr.strip r0));
                      ("sent_from", JString (GMAIL_EMAIL cfg));
                      ("subject", JString (PyStr.strip s0));
                      ("timestamp", JString (isoformat (clock eta (ticks w)))) ])),
     after_tick w1).
Proof.
  intros Hcfg Hreq Nr Ns Nb Hshape Hrelay.
  rewrite (send_email_valid cfg eta req r0 s0 b0 w w1 _ Hcfg Hreq Nr Ns Nb Hshape Hrelay).
  rewrite send_email_smtp_run in Hrelay.
  destruct (session_raises (smtp eta (relay_calls w))); [discriminate|].
  injection Hrelay as <- <- <-.
  eexists. repeat split.
Qed.

Lemma success_response_witness :
  exists id,
    Some "01010101-0101-4101-8101-010101010101" = Some id /\
    "Email sent successfully" = "Email sent successfully" /\
    send_email Fixture.cfg Fixture.eta
      (Fixture.post (Fixture.letter " ann@example.org "))
      (World 1 0 0 [] []) =
    (Ok (Response 200
           (JObject [ ("status", JString "success");
                      ("message", JString "Email sent successfully");
                      ("email_id", JString id);
                      ("sent_to", JString "ann@example.org");
                      ("sent_from", JString "sender@example.org");
                      ("subject", JString "Hello");
                      ("timestamp", JString "2024-03-09T12:00:00") ])),
     World 2 1 1 [Mail "sender@example.org" "ann@example.org" "Hello" "How are you?"] []).
Proof.
  refine (success_response Fixture.cfg Fixture.eta
            (Fixture.post (Fixture.letter " ann@example.org "))
            " ann@example.org " " Hello " "How are you?"
            (World 1 0 0 [] [])
            (World 2 0 1 [Mail "sender@example.org" "ann@example.org" "Hello" "How are you?"] [])
            "Email sent successfully"
            (Some "01010101-0101-4101-8101-010101010101") _ _ _ _ _ _ _).
  - reflexivity.
  - split; [reflexivity|]. eexists. repeat split; reflexivity.
  - vm_compute. discriminate.
  - vm_compute. discriminate.
  - vm_compute. discriminate.
  - reflexivity.
  - vm_compute. reflexivity.
Defined.

(** [GET /] answers 200 whatever the module constants are, and its
    [email_config_valid] is the validator's verdict, which is false
    exactly when [GMAIL_EMAIL] or [GMAIL_APP_PASSWORD], as loaded, is
    the empty string. *)
Theorem home_reports_config (cfg : settings) (eta : env) (w : world) :
  exists members,
    home cfg eta w = (Ok (Response 200 (JObject members)), after_tick w) /\
    lookup "email_config_valid" members
    = Some (JBool (fst (validate_email_config cfg))) /\
    (fst (validate_email_config cfg) = false <->
     GMAIL_EMAIL cfg = "" \/ GMAIL_APP_PASSWORD cfg = "").
Proof.
  unfold home, validate_email_config.
  destruct (GMAIL_EMAIL cfg) as [|c1 s1], (GMAIL_APP_PASSWORD cfg) as [|c2 s2];
    cbn [PyStr.truthy negb orb fst];
    (eexists; split; [reflexivity|]; split; [reflexivity|]);
    split; intros H; auto; try discriminate.
  destruct H; discriminate.
Qed.

(** ** The first statements of the handler *)

Section Checks.

Variable cfg : settings.
Variable eta : env.
Variable req : request.
Variable w : world.

Lemma validate_false :
  fst (validate_email_config cfg) = false ->
  validate_email_config cfg = (false, config_missing_msg).
Proof.
  unfold validate_email_config.
  destruct (negb (PyStr.truthy (GMAIL_EMAIL cfg))
            || negb (PyStr.truthy (GMAIL_APP_PASSWORD cfg)));
    [reflexivity | discriminate].
Qed.

Lemma validate_true :
  fst (validate_email_config cfg) = true ->
  validate_email_config cfg = (true, "OK").
Proof.
  unfold validate_email_config.
  destruct (negb (PyStr.truthy (GMAIL_EMAIL cfg))
            || negb (PyStr.truthy (GMAIL_APP_PASSWORD cfg)));
    [discriminate | reflexivity].
Qed.

(** What the catch-all makes of an exception. *)
Lemma catch_all (e : exn) (w' : world) :
  dispatch
    [ (Exception, fun e => (print_traceback e ;; mret internal_error)%M) ] e w'
  = (Ok internal_error, after_print w' e).
Proof. cbn [dispatch]. now rewrite isinstance_Exception. Qed.

Lemma send_email_config_invalid :
  fst (validate_email_config cfg) = false ->
  send_email cfg eta req w =
  (Ok (jsonify [ ("error", JString "Server configuration error");
                 ("message", JString config_missing_msg) ] 500), w).
Proof.
  intros H. unfold send_email, try_except, send_email_try.
  now rewrite (validate_false H).
Qed.

Lemma send_email_not_json :
  fst (validate_email_config cfg) = true ->
  is_json req = false ->
  send_email cfg eta req w =
  (Ok (jsonify [ ("error", JString "Content-Type must be application/json") ] 400), w).
Proof.
  intros H J. unfold send_email, try_except, send_email_try.
  now rewrite (validate_true H), J.
Qed.

Lemma send_email_malformed :
  fst (validate_email_config cfg) = true ->
  is_json req = true ->
  body req = Malformed ->
  send_email cfg eta req w = (Ok internal_error, after_print w bad_request).
Proof.
  intros H J B. unfold send_email, try_except, send_email_try.
  rewrite (validate_true H), J. cbn [negb].
  unfold mbind, get_json. rewrite B. cbn [mraise]. apply catch_all.
Qed.

(** Once the body has parsed, the handler is a function of the data. *)
Lemma send_email_parsed (data : json) :
  fst (validate_email_config cfg) = true ->
  is_json req = true ->
  body req = Parsed data ->
  send_email cfg eta req w =
  if negb (truthy data) then
    (Ok (jsonify [ ("error", JString "Request body is required") ] 400), w)
  else
    match scan_fields data required_fields [] with
    | Raise e => (Ok internal_error, after_print w e)
    | Ok (f :: rest) =>
        (Ok (jsonify [ ("error", JString "Missing required fields");
                       ("missing_fields", json_strings (f :: rest));
                       ("required_fields", json_strings required_fields) ] 400), w)
    | Ok [] => send_email cfg eta req w
    end.
Proof.
  intros H J B.
  destruct (negb (truthy data)) eqn:T;
    [| destruct (scan_fields data required_fields []) as [[|f rest]|e] eqn:S;
       [reflexivity| |]];
    unfold send_email, try_except, send_email_try;
    rewrite (validate_true H), J; cbn [negb];
    unfold get_json; rewrite B; unfold mbind at 1; cbn [mret]; rewrite T.
  - reflexivity.
  - unfold mbind at 1, lift at 1. now rewrite S.
  - unfold mbind at 1, lift at 1. rewrite S. apply catch_all.
Qed.

End Checks.

Section Shape.

Variable cfg : settings.
Variable eta : env.

Lemma send_email_bad_shape (req : request) (r0 s0 b0 : string) (w : world) :
  fst (validate_email_config cfg) = true ->
  carries req r0 s0 b0 ->
  nonblank r0 -> nonblank s0 -> nonblank b0 ->
  email_shaped (PyStr.strip r0) = false ->
  send_email cfg eta req w =
  (Ok (jsonify [ ("error", JString "Invalid email format");
                 ("message", JString "Please provide a valid email address") ] 400), w).
Proof.
  intros Hcfg (Hjson & members & Hbody & Hr & Hs & Hb) Nr Ns Nb Hshape.
  unfold send_email, try_except, send_email_try.
  rewrite (validate_true cfg Hcfg), Hjson. cbn [negb].
  unfold get_json. rewrite Hbody.
  unfold mbind at 1. cbn [mret].
  rewrite (lookup_nonempty _ _ _ Hr). cbn [negb].
  unfold mbind at 1, lift at 1.
  rewrite (scan_fields_filled _ _ _ _ Hr Hs Hb Nr Ns Nb).
  unfold mbind at 1, lift at 1. rewrite (stripped_string _ _ _ Hr).
  unfold mbind at 1, lift at 1. rewrite (stripped_string _ _ _ Hs).
  unfold mbind at 1, lift at 1. rewrite (stripped_string _ _ _ Hb).
  unfold email_shaped in Hshape.
  replace (negb (PyStr.contains "@" (PyStr.strip r0))
           || negb (PyStr.contains "." (PyStr.strip r0)))
    with true
    by (destruct (PyStr.contains "@" (PyStr.strip r0)),
                 (PyStr.contains "." (PyStr.strip r0)); (reflexivity || discriminate)).
  reflexivity.
Qed.

(** Passing the required-field check means that the body is an object
    holding the three fields as strings that are not blank. *)
Lemma scan_passed_carries (req : request) (data : json) :
  is_json req = true ->
  body req = Parsed data ->
  scan_fields data required_fields [] = Ok [] ->
  exists r0 s0 b0,
    carries req r0 s0 b0 /\ nonblank r0 /\ nonblank s0 /\ nonblank b0 /\
    stripped data "receiver_email" = Ok (PyStr.strip r0).
Proof.
  intros J B S.
  destruct data as [| | | | |items|members]; try discriminate S.
  destruct (scan_fields_passed members required_fields "receiver_email" S)
    as [r0 [Hr Nr]]; [cbn; auto|].
  destruct (scan_fields_passed members required_fields "subject" S)
    as [s0 [Hs Ns]]; [cbn; auto|].
  destruct (scan_fields_passed members required_fields "body_text" S)
    as [b0 [Hb Nb]]; [cbn; auto|].
  exists r0, s0, b0. rewrite !nonblank_blank.
  repeat split; try assumption.
  - exists members. auto.
  - now apply stripped_string.
Qed.

End Shape.



(** C6.  A request that passes the required-field check and whose
    trimmed [receiver_email] lacks an at sign or a dot is answered 400
    "Invalid email format" with a message for the reader. *)
Theorem invalid_email_format
    (cfg : settings) (eta : env) (req : request) (data : json) (r0 : string)
    (w : world) :
  fst (validate_email_config cfg) = true ->
  is_json req = true ->
  body req = Parsed data ->
  scan_fields data required_fields [] = Ok [] ->
  py_getitem data "receiver_email" = Ok (JString r0) ->
  PyStr.contains "@" (PyStr.strip r0) && PyStr.contains "." (PyStr.strip r0) = false ->
  send_email cfg eta req w =
  (Ok (Response 400
         (JObject [ ("error", JString "Invalid email format");
                    ("message", JString "Please provide a valid email address") ])), w).
Proof.
  intros Hcfg Hjson Hbody S Hitem Hshape.
  destruct (scan_passed_carries req data Hjson Hbody S)
    as (r1 & s0 & b0 & Hc & Nr & Ns & Nb & Hr).
  assert (r1 = r0) as ->.
  { unfold stripped in Hr. rewrite Hitem in Hr. cbn in Hr.
    destruct Hc as (_ & members & Hb & Hl & _).
    rewrite Hbody in Hb. injection Hb as ->.
    unfold py_getitem in Hitem. rewrite Hl in Hitem. now injection Hitem. }
  now apply (send_email_bad_shape cfg eta req r0 s0 b0).
Qed.

Lemma invalid_email_format_witness :
  send_email Fixture.cfg Fixture.eta
    (Fixture.post (Fixture.letter "not-an-email")) Fixture.w0 =
  (Ok (Response 400
         (JObject [ ("error", JString "Invalid email format");
                    ("message", JString "Please provide a valid email address") ])),
   Fixture.w0).
Proof.
  apply (invalid_email_format Fixture.cfg Fixture.eta
           (Fixture.post (Fixture.letter "not-an-email"))
           (Fixture.letter "not-an-email") "not-an-email" Fixture.w0);
    reflexivity.
Defined.

(** The failing input of C2: with a JSON content type and a body that
    does not parse, [get_json] raises [BadRequest] inside the [try], the
    catch-all handles it, and the answer is 500. *)
Lemma malformed_json_counterexample :
  is_json (Request true Malformed) = true /\
  body (Request true Malformed) = Malformed /\
  send_email Fixture.cfg Fixture.eta (Request true Malformed) Fixture.w0
  = (Ok internal_error, after_print Fixture.w0 bad_request) /\
  status internal_error = 500 /\
  status internal_error <> 400.
Proof. repeat split. discriminate. Qed.

(** C2.  The handler breaks the claim.  A request whose content type
    is JSON and whose body does not parse is never answered 400: it is
    answered 500, "Internal server error" from the catch-all when the
    configuration is valid, with the traceback printed, and "Server
    configuration error" otherwise.  The 400 that the handler has for a
    body it cannot use, "Request body is required", is out of reach of
    such a body (see [body_required_exactly]). *)
Theorem malformed_json_is_500 (cfg : settings) (eta : env) (req : request) (w : world) :
  is_json req = true ->
  body req = Malformed ->
  exists resp w',
    send_email cfg eta req w = (Ok resp, w') /\
    status resp = 500 /\
    (fst (validate_email_config cfg) = true ->
     resp = internal_error /\ w' = after_print w bad_request).
Proof.
  intros Hjson Hbody.
  destruct (fst (validate_email_config cfg)) eqn:Hcfg.
  - rewrite (send_email_malformed cfg eta req w Hcfg Hjson Hbody).
    do 2 eexists. repeat split.
  - rewrite (send_email_config_invalid cfg eta req w Hcfg).
    do 2 eexists. split; [reflexivity|]. split; [reflexivity|]. discriminate.
Qed.

Lemma malformed_json_is_500_witness :
  exists resp w',
    send_email Fixture.cfg Fixture.eta (Request true Malformed) Fixture.w0
    = (Ok resp, w') /\
    status resp = 500 /\
    (fst (validate_email_config Fixture.cfg) = true ->
     resp = internal_error /\ w' = after_print Fixture.w0 bad_request).
Proof.
  apply (malformed_json_is_500 Fixture.cfg Fixture.eta (Request true Malformed) Fixture.w0);
    reflexivity.
Defined.

(** Every field the claim calls absent or blank is one the handler
    reports. *)
Lemma absent_or_whitespace_reported (members : list (string * json)) (field : string) :
  absent_or_whitespace members field = true -> absent_or_blank members field = true.
Proof.
  unfold absent_or_whitespace, absent_or_blank.
  destruct (lookup field members) as [[]|]; auto; discriminate.
Qed.

(** C3, as stated, fails: here [subject] and [body_text] are absent, yet
    the number held by [receiver_email] has no [strip], the loop raises,
    and the answer is 500 rather than 400. *)
Lemma missing_fields_counterexample :
  absent_or_whitespace [("receiver_email", JInt 5)] "subject" = true /\
  send_email Fixture.cfg Fixture.eta
    (Fixture.post (JObject [("receiver_email", JInt 5)])) Fixture.w0
  = (Ok internal_error, after_print Fixture.w0 no_strip) /\
  status internal_error <> 400.
Proof. repeat split. discriminate. Qed.

(** C3, amended.  For a request that reaches the required-field check
    and none of whose required fields holds a truthy value that is not a
    string: if one or more of the three fields is absent, falsy or a
    blank string, the answer is 400 "Missing required fields", and
    [missing_fields] lists exactly those fields, in the order of
    [required_fields], next to the whole of [required_fields]. *)
Theorem missing_fields_reported
    (cfg : settings) (eta : env) (req : request)
    (members : list (string * json)) (w : world) :
  fst (validate_email_config cfg) = true ->
  is_json req = true ->
  body req = Parsed (JObject members) ->
  members <> [] ->
  forallb (fun f => negb (ill_typed members f)) required_fields = true ->
  existsb (absent_or_blank members) required_fields = true ->
  send_email cfg eta req w =
  (Ok (Response 400
         (JObject [ ("error", JString "Missing required fields");
                    ("missing_fields",
                     json_strings (filter (absent_or_blank members) required_fields));
                    ("required_fields",
                     json_strings ["receiver_email"; "subject"; "body_text"]) ])), w).
Proof.
  intros Hcfg Hjson Hbody Hne Hty Hex.
  rewrite (send_email_parsed cfg eta req w _ Hcfg Hjson Hbody).
  replace (negb (truthy (JObject members))) with false
    by (destruct members; [congruence | reflexivity]).
  rewrite (scan_fields_well_typed members required_fields [] Hty). cbn [app].
  destruct (filter (absent_or_blank members) required_fields) as [|f rest] eqn:F;
    [|reflexivity].
  apply existsb_exists in Hex as [f [Hin Hf]].
  assert (Hx : In f (filter (absent_or_blank members) required_fields))
    by (apply filter_In; auto).
  rewrite F in Hx. destruct Hx.
Qed.

Lemma missing_fields_reported_witness :
  send_email Fixture.cfg Fixture.eta
    (Fixture.post (JObject [ ("receiver_email", JString "ann@example.org");
                             ("subject", JString "   ");
                             ("body_text", JInt 0) ])) Fixture.w0
  = (Ok (Response 400
           (JObject [ ("error", JString "Missing required fields");
                      ("missing_fields", JArray [JString "subject"; JString "body_text"]);
                      ("required_fields",
                       JArray [JString "receiver_email"; JString "subject";
                               JString "body_text"]) ])), Fixture.w0).
Proof.
  apply (missing_fields_reported Fixture.cfg Fixture.eta
           (Fixture.post (JObject [ ("receiver_email", JString "ann@example.org");
                                    ("subject", JString "   ");
                                    ("body_text", JInt 0) ]))
           [ ("receiver_email", JString "ann@example.org");
             ("subject", JString "   ");
             ("body_text", JInt 0) ] Fixture.w0);
    try reflexivity.
  discriminate.
Defined.




(** ** Identifiers *)

Section Identifiers.

Lemma digit_value_char (d : Z) : 0 <= d < 16 -> digit_value (digit_char d) = d.
Proof.
  intros H.
  assert (d = 0 \/ d = 1 \/ d = 2 \/ d = 3 \/ d = 4 \/ d = 5 \/ d = 6 \/ d = 7 \/
          d = 8 \/ d = 9 \/ d = 10 \/ d = 11 \/ d = 12 \/ d = 13 \/ d = 14 \/ d = 15)
    as Hd by lia.
  repeat (destruct Hd as [->|Hd]; [reflexivity|]). subst. reflexivity.
Qed.

Lemma undigits_fixed (n : nat) (x : Z) (rest : string) (a : Z) :
  undigits (fixed_digits 16 n x rest) a =
  undigits rest (a * 16 ^ Z.of_nat n + x mod 16 ^ Z.of_nat n).
Proof.
  revert x rest. induction n as [|n IH]; intros x rest.
  - cbn [fixed_digits]. change (16 ^ Z.of_nat 0) with 1.
    rewrite Z.mod_1_r. f_equal. lia.
  - cbn [fixed_digits]. rewrite IH. cbn [undigits].
    rewrite digit_value_char by (apply Z.mod_pos_bound; lia).
    f_equal. rewrite Nat2Z.inj_succ, Z.pow_succ_r by lia.
    rewrite (Z.rem_mul_r x 16 (16 ^ Z.of_nat n)) by lia. lia.
Qed.

(** Two numbers with the same [n] hexadecimal digits agree modulo
    [16 ^ n]. *)
Lemma hex_injective (n : nat) (x y : Z) :
  hex n x = hex n y -> x mod 16 ^ Z.of_nat n = y mod 16 ^ Z.of_nat n.
Proof.
  unfold hex. intros H.
  pose proof (undigits_fixed n x "" 0) as Hx.
  pose proof (undigits_fixed n y "" 0) as Hy.
  rewrite H in Hx. rewrite Hx in Hy. cbn [undigits] in Hy. lia.
Qed.

Lemma fixed_digits_length (radix : Z) (n : nat) (x : Z) (rest : string) :
  String.length (fixed_digits radix n x rest) = (n + String.length rest)%nat.
Proof.
  revert x rest. induction n as [|n IH]; intros x rest; cbn [fixed_digits].
  - reflexivity.
  - rewrite IH. cbn [String.length]. lia.
Qed.

Lemma uuid_str_dashed (i : Z) : uuid_str i = dashed (hex 32 i).
Proof. reflexivity. Qed.

Lemma undashed_dashed (h : string) : String.length h = 32%nat -> undashed (dashed h) = h.
Proof.
  intros H.
  do 32 (destruct h as [|? h]; [discriminate H|]).
  destruct h; [reflexivity | discriminate H].
Qed.

Lemma dashed_nonempty (h : string) : dashed h <> "".
Proof.
  unfold dashed. destruct (slice 0 8 h); cbn; discriminate.
Qed.

(** [uuid4] overwrites six bits and keeps the other 122. *)
Lemma uuid4_int_keeps (r : Z) :
  Z.land (uuid4_int r) random_bits = Z.land r random_bits.
Proof.
  unfold uuid4_int. cbv zeta.
  rewrite !Z.land_lor_distr_l, <- !Z.land_assoc.
  change (Z.land (Z.shiftl 4 76) random_bits) with 0.
  change (Z.land (Z.shiftl 32768 48) (Z.land (Z.lnot (Z.shiftl 61440 64)) random_bits)) with 0.
  change (Z.land (Z.lnot (Z.shiftl 49152 48))
            (Z.land (Z.lnot (Z.shiftl 61440 64)) random_bits)) with random_bits.
  now rewrite !Z.lor_0_r.
Qed.

Lemma land_mod_random_bits (x : Z) :
  Z.land (x mod 16 ^ Z.of_nat 32) random_bits = Z.land x random_bits.
Proof.
  change (16 ^ Z.of_nat 32) with (2 ^ 128).
  rewrite <- Z.land_ones by lia. rewrite <- Z.land_assoc.
  reflexivity.
Qed.

(** Draws that differ in a bit [uuid4] keeps give different
    identifiers. *)
Lemma uuid_str_distinct (r1 r2 : Z) :
  Z.land r1 random_bits <> Z.land r2 random_bits ->
  uuid_str (uuid4_int r1) <> uuid_str (uuid4_int r2).
Proof.
  intros Hne Heq. apply Hne.
  rewrite <- (uuid4_int_keeps r1), <- (uuid4_int_keeps r2).
  rewrite <- (land_mod_random_bits (uuid4_int r1)),
          <- (land_mod_random_bits (uuid4_int r2)).
  f_equal. apply hex_injective.
  rewrite !uuid_str_dashed in Heq.
  apply (f_equal undashed) in Heq.
  rewrite !undashed_dashed in Heq
    by (unfold hex; now rewrite fixed_digits_length).
  exact Heq.
Qed.

End Identifiers.

(** C8.  The relay client never raises.  Whatever exception the
    conversation ends in, the result is unsuccessful, carries no
    identifier, and its message is the prefix of the exception's
    category followed by [str(e)]; an identifier is present exactly on
    success.  The five prefixes tell the categories apart: a message of
    one category never starts with the prefix of another.  Each of the
    five exception classes named in the code falls in its own
    category. *)
Theorem relay_failure_outcomes :
  (forall (cfg : settings) (eta : env) (receiver_email subject body_text : string)
          (w : world),
      exists success message email_id w',
        send_email_smtp cfg eta receiver_email subject body_text w
        = (Ok (success, message, email_id), w') /\
        match session_raises (smtp eta (relay_calls w)) with
        | Some e =>
            success = false /\ email_id = None /\
            message = category_prefix (categorise e) ++ exn_str e
        | None =>
            success = true /\ exists id, email_id = Some id
        end)
  /\
  (forall (c1 c2 : category) (text : string),
      String.prefix (category_prefix c1) (category_prefix c2 ++ text)
      = category_eqb c1 c2)
  /\
  (forall text : string,
      categorise (Exn SMTPAuthenticationError text) = AuthenticationFailure /\
      categorise (Exn SMTPRecipientsRefused text) = RecipientRejected /\
      categorise (Exn SMTPServerDisconnected text) = ConnectionLost /\
      categorise (Exn SMTPException text) = TransportError /\
      categorise (Exn SMTPDataError text) = TransportError /\
      categorise (Exn Exception text) = UnexpectedError /\
      categorise (Exn TimeoutError text) = UnexpectedError).
Proof.
  split; [|split].
  - intros cfg eta receiver_email subject body_text w.
    rewrite send_email_smtp_run.
    destruct (session_raises (smtp eta (relay_calls w))) as [e|];
      do 4 eexists; split; try reflexivity; repeat split.
    eexists. reflexivity.
  - intros c1 c2 text. destruct c1, c2; cbn; try reflexivity; destruct text; reflexivity.
  - intros text. repeat split.
Qed.

(** C9.  Two successful sends of the same valid request are both
    answered 200 with an [email_id] that is not empty.  Each identifier
    is the UUID made from the entropy drawn during that send and from
    nothing else, so the two differ as soon as the two draws differ in
    one of the 122 bits a version-4 UUID keeps. *)
Theorem two_sends_two_ids
    (cfg : settings) (eta : env) (req : request) (r0 s0 b0 : string)
    (w w1 w2 : world) (m1 m2 : string) (e1 e2 : option string) :
  fst (validate_email_config cfg) = true ->
  carries req r0 s0 b0 ->
  nonblank r0 -> nonblank s0 -> nonblank b0 ->
  email_shaped (PyStr.strip r0) = true ->
  send_email_smtp cfg eta (PyStr.strip r0) (PyStr.strip s0) (PyStr.strip b0) w
  = (Ok (true, m1, e1), w1) ->
  send_email_smtp cfg eta (PyStr.strip r0) (PyStr.strip s0) (PyStr.strip b0)
    (after_tick w1)
  = (Ok (true, m2, e2), w2) ->
  Z.land (draw eta (draws w)) random_bits
  <> Z.land (draw eta (S (draws w))) random_bits ->
  exists resp1 resp2 id1 id2,
    send_email cfg eta req w = (Ok resp1, after_tick w1) /\
    send_email cfg eta req (after_tick w1) = (Ok resp2, after_tick w2) /\
    status resp1 = 200 /\ status resp2 = 200 /\
    member "email_id" resp1 = Some (JString id1) /\
    member "email_id" resp2 = Some (JString id2) /\
    id1 = uuid_str (uuid4_int (draw eta (draws w))) /\
    id2 = uuid_str (uuid4_int (draw eta (S (draws w)))) /\
    id1 <> "" /\ id2 <> "" /\ id1 <> id2.
Proof.
  intros Hcfg Hreq Nr Ns Nb Hshape H1 H2 Hdraws.
  rewrite (send_email_valid cfg eta req r0 s0 b0 w w1 _ Hcfg Hreq Nr Ns Nb Hshape H1).
  rewrite (send_email_valid cfg eta req r0 s0 b0 _ w2 _ Hcfg Hreq Nr Ns Nb Hshape H2).
  rewrite send_email_smtp_run in H1.
  destruct (session_raises (smtp eta (relay_calls w))); [discriminate|].
  injection H1 as <- <- <-.
  rewrite send_email_smtp_run in H2.
  destruct (session_raises (smtp eta (relay_calls _))); [discriminate|].
  injection H2 as <- <- <-.
  cbn [after_tick after_delivery draws].
  do 4 eexists. repeat split.
  - rewrite uuid_str_dashed. apply dashed_nonempty.
  - rewrite uuid_str_dashed. apply dashed_nonempty.
  - now apply uuid_str_distinct.
Qed.

Lemma two_sends_two_ids_witness :
  let req := Fixture.post (Fixture.letter " ann@example.org ") in
  let m := Mail "sender@example.org" "ann@example.org" "Hello" "How are you?" in
  exists resp1 resp2 id1 id2,
    send_email Fixture.cfg Fixture.eta req Fixture.w0
    = (Ok resp1, after_tick (World 1 0 1 [m] [])) /\
    send_email Fixture.cfg Fixture.eta req (after_tick (World 1 0 1 [m] []))
    = (Ok resp2, after_tick (World 2 1 2 [m; m] [])) /\
    status resp1 = 200 /\ status resp2 = 200 /\
    member "email_id" resp1 = Some (JString id1) /\
    member "email_id" resp2 = Some (JString id2) /\
    id1 = uuid_str (uuid4_int (draw Fixture.eta (draws Fixture.w0))) /\
    id2 = uuid_str (uuid4_int (draw Fixture.eta (S (draws Fixture.w0)))) /\
    id1 <> "" /\ id2 <> "" /\ id1 <> id2.
Proof.
  intros req m.
  refine (two_sends_two_ids Fixture.cfg Fixture.eta req
            " ann@example.org " " Hello " "How are you?"
            Fixture.w0 (World 1 0 1 [m] []) (World 2 1 2 [m; m] [])
            "Email sent successfully" "Email sent successfully"
            (Some "00000000-0000-4000-8000-000000000000")
            (Some "01010101-0101-4101-8101-010101010101")
            _ _ _ _ _ _ _ _ _).
  - reflexivity.
  - split; [reflexivity|]. eexists. repeat split; reflexivity.
  - vm_compute. discriminate.
  - vm_compute. discriminate.
  - vm_compute. discriminate.
  - reflexivity.
  - vm_compute. reflexivity.
  - vm_compute. reflexivity.
  - vm_compute. discriminate.
Defined.

(* ================================================================= *)
(** * Further properties of the handler and of the relay client *)

(** ** The handler, case by case *)

Section Verdicts.

Variable cfg : settings.
Variable eta : env.

(** What the handler does with the result of the relay call. *)
Lemma send_email_relayed (req : request) (data : json) (r s b : string) (w : world) :
  fst (validate_email_config cfg) = true ->
  is_json req = true ->
  body req = Parsed data ->
  truthy data = true ->
  scan_fields data required_fields [] = Ok [] ->
  stripped data "receiver_email" = Ok r ->
  stripped data "subject" = Ok s ->
  stripped data "body_text" = Ok b ->
  negb (PyStr.contains "@" r) || negb (PyStr.contains "." r) = false ->
  send_email cfg eta req w =
  match session_raises (smtp eta (relay_calls w)) with
  | None =>
      (Ok (success_body cfg r s (uuid_str (uuid4_int (draw eta (draws w))))
             (clock eta (ticks w))),
       after_tick (after_delivery w (Mail (GMAIL_EMAIL cfg) r s b)))
  | Some e =>
      (Ok (failure_response (relay_message e)),
       if accepted (smtp eta (relay_calls w))
       then after_delivery w (Mail (GMAIL_EMAIL cfg) r s b)
       else after_attempt w)
  end.
Proof.
  intros Hcfg Hjson Hbody T S Hr Hs Hb Hshape.
  unfold send_email, try_except, send_email_try.
  rewrite (validate_true cfg Hcfg), Hjson. cbn [negb].
  unfold get_json. rewrite Hbody.
  unfold mbind at 1. cbn [mret]. rewrite T. cbn [negb].
  unfold mbind at 1, lift at 1. rewrite S.
  unfold mbind at 1, lift at 1. rewrite Hr.
  unfold mbind at 1, lift at 1. rewrite Hs.
  unfold mbind at 1, lift at 1. rewrite Hb.
  rewrite Hshape.
  unfold mbind at 1. rewrite send_email_smtp_run.
  destruct (session_raises (smtp eta (relay_calls w))) as [e|].
  - unfold failure_response, relay_message.
    destruct (PyStr.contains "Authentication" _); [reflexivity|].
    destruct (PyStr.contains "recipient" _); reflexivity.
  - reflexivity.
Qed.

(** The handler is its decision followed, for a request that passes,
    by the relay call and the rendering of its result. *)
Lemma send_email_by_verdict (req : request) (w : world) :
  send_email cfg eta req w =
  match verdict_of cfg req with
  | ConfigInvalid => (Ok config_error, w)
  | NotJson =>
      (Ok (jsonify [ ("error", JString "Content-Type must be application/json") ] 400), w)
  | Unparseable => (Ok internal_error, after_print w bad_request)
  | NoBody => (Ok (jsonify [ ("error", JString "Request body is required") ] 400), w)
  | Violation e => (Ok internal_error, after_print w e)
  | Missing fields =>
      (Ok (jsonify [ ("error", JString "Missing required fields");
                     ("missing_fields", json_strings fields);
                     ("required_fields", json_strings required_fields) ] 400), w)
  | BadShape =>
      (Ok (jsonify [ ("error", JString "Invalid email format");
                     ("message", JString "Please provide a valid email address") ] 400), w)
  | Relay r s b =>
      match session_raises (smtp eta (relay_calls w)) with
      | None =>
          (Ok (success_body cfg r s (uuid_str (uuid4_int (draw eta (draws w))))
                 (clock eta (ticks w))),
           after_tick (after_delivery w (Mail (GMAIL_EMAIL cfg) r s b)))
      | Some e =>
          (Ok (failure_response (relay_message e)),
           if accepted (smtp eta (relay_calls w))
           then after_delivery w (Mail (GMAIL_EMAIL cfg) r s b)
           else after_attempt w)
      end
  end.
Proof.
  unfold verdict_of.
  destruct (fst (validate_email_config cfg)) eqn:Hcfg; cbn [negb];
    [|now apply send_email_config_invalid].
  destruct (is_json req) eqn:Hjson; cbn [negb];
    [|now apply send_email_not_json].
  destruct (body req) as [|data] eqn:Hbody;
    [now apply send_email_malformed|].
  destruct (truthy data) eqn:T; cbn [negb].
  2:{ rewrite (send_email_parsed cfg eta req w data Hcfg Hjson Hbody).
      now rewrite T. }
  destruct (scan_fields data required_fields []) as [[|f rest]|e] eqn:S.
  - destruct (scan_passed_carries req data Hjson Hbody S)
      as (r0 & s0 & b0 & (_ & members & Hb' & Hr & Hs & Hb) & _).
    rewrite Hbody in Hb'. injection Hb' as ->.
    rewrite (stripped_string _ _ _ Hr), (stripped_string _ _ _ Hs),
            (stripped_string _ _ _ Hb).
    destruct (negb (PyStr.contains "@" (PyStr.strip r0))
              || negb (PyStr.contains "." (PyStr.strip r0))) eqn:Hshape.
    + unfold send_email, try_except, send_email_try.
      rewrite (validate_true cfg Hcfg), Hjson. cbn [negb].
      unfold get_json. rewrite Hbody.
      unfold mbind at 1. cbn [mret]. rewrite T. cbn [negb].
      unfold mbind at 1, lift at 1. rewrite S.
      unfold mbind at 1, lift at 1. rewrite (stripped_string _ _ _ Hr).
      unfold mbind at 1, lift at 1. rewrite (stripped_string _ _ _ Hs).
      unfold mbind at 1, lift at 1. rewrite (stripped_string _ _ _ Hb).
      now rewrite Hshape.
    + apply (send_email_relayed req (JObject members)); auto using stripped_string.
  - rewrite (send_email_parsed cfg eta req w data Hcfg Hjson Hbody).
    now rewrite T, S.
  - rewrite (send_email_parsed cfg eta req w data Hcfg Hjson Hbody).
    now rewrite T, S.
Qed.

End Verdicts.

(** ** What the verdicts mean *)

Section VerdictFacts.

Variable cfg : settings.
Variable req : request.

Lemma scan_fields_raises (data : json) (fields missing : list string) (e : exn) :
  scan_fields data fields missing = Raise e ->
  (is_object data = false /\ e = no_get) \/
  (exists members field,
      data = JObject members /\ In field fields /\
      ill_typed members field = true /\ e = no_strip).
Proof.
  destruct data as [| | | | | |members];
    try (destruct fields; [discriminate|]; cbn; intros H; injection H as <-; now left).
  intros H. right. exists members.
  revert missing H. induction fields as [|f rest IH]; intros missing H; [discriminate|].
  cbn [scan_fields] in H. rewrite field_missing_object in H.
  destruct (ill_typed members f) eqn:Hf.
  - cbn in H. injection H as <-. exists f. repeat split; auto. now left.
  - cbn [rbind] in H. destruct (IH _ H) as (g & _ & Hin & Hill & He).
    exists g. repeat split; auto. now right.
Qed.

(** A request is passed on to the relay exactly when it carries three
    strings that are not blank, the first of them shaped like an
    address; the relay is given their trimmed values. *)
Lemma verdict_relay (r s b : string) :
  verdict_of cfg req = Relay r s b <->
  fst (validate_email_config cfg) = true /\
  exists r0 s0 b0,
    carries req r0 s0 b0 /\ nonblank r0 /\ nonblank s0 /\ nonblank b0 /\
    email_shaped (PyStr.strip r0) = true /\
    r = PyStr.strip r0 /\ s = PyStr.strip s0 /\ b = PyStr.strip b0.
Proof.
  unfold verdict_of. split.
  - destruct (fst (validate_email_config cfg)); cbn [negb]; [|discriminate].
    destruct (is_json req) eqn:Hjson; cbn [negb]; [|discriminate].
    destruct (body req) as [|data] eqn:Hbody; [discriminate|].
    destruct (truthy data); cbn [negb]; [|discriminate].
    destruct (scan_fields data required_fields []) as [[|f rest]|e] eqn:S;
      try discriminate.
    destruct (scan_passed_carries req data Hjson Hbody S)
      as (r0 & s0 & b0 & Hc & Nr & Ns & Nb & _).
    destruct Hc as (Hj & members & Hb' & Hr & Hs & Hb).
    rewrite Hbody in Hb'. injection Hb' as ->.
    rewrite (stripped_string _ _ _ Hr), (stripped_string _ _ _ Hs),
            (stripped_string _ _ _ Hb).
    destruct (negb (PyStr.contains "@" (PyStr.strip r0))
              || negb (PyStr.contains "." (PyStr.strip r0))) eqn:Hshape;
      [discriminate|].
    intros H. injection H as <- <- <-. split; [reflexivity|].
    exists r0, s0, b0. repeat split; auto.
    + exists members. auto.
    + unfold email_shaped.
      destruct (PyStr.contains "@" _), (PyStr.contains "." _); auto; discriminate.
  - intros (Hcfg & r0 & s0 & b0 & (Hjson & members & Hbody & Hr & Hs & Hb)
            & Nr & Ns & Nb & Hshape & -> & -> & ->).
    rewrite Hcfg, Hjson, Hbody. cbn [negb].
    rewrite (lookup_nonempty _ _ _ Hr). cbn [negb].
    rewrite (scan_fields_filled _ _ _ _ Hr Hs Hb Nr Ns Nb).
    rewrite (stripped_string _ _ _ Hr), (stripped_string _ _ _ Hs),
            (stripped_string _ _ _ Hb).
    unfold email_shaped in Hshape. apply andb_true_iff in Hshape as [-> ->].
    reflexivity.
Qed.

(** The handler's own statements raise only for a value that lacks the
    method called on it. *)
Lemma verdict_violation (e : exn) :
  verdict_of cfg req = Violation e <->
  fst (validate_email_config cfg) = true /\ is_json req = true /\
  exists data,
    body req = Parsed data /\ truthy data = true /\
    ((is_object data = false /\ e = no_get) \/
     (exists members field,
         data = JObject members /\ In field required_fields /\
         ill_typed members field = true /\ e = no_strip)).
Proof.
  unfold verdict_of. split.
  - destruct (fst (validate_email_config cfg)); cbn [negb]; [|discriminate].
    destruct (is_json req) eqn:Hjson; cbn [negb]; [|discriminate].
    destruct (body req) as [|data] eqn:Hbody; [discriminate|].
    destruct (truthy data) eqn:T; cbn [negb]; [|discriminate].
    destruct (scan_fields data required_fields []) as [[|f rest]|e'] eqn:S.
    + destruct (scan_passed_carries req data Hjson Hbody S)
        as (r0 & s0 & b0 & Hc & _).
      destruct Hc as (Hj & members & Hb' & Hr & Hs & Hb).
      rewrite Hbody in Hb'. injection Hb' as ->.
      rewrite (stripped_string _ _ _ Hr), (stripped_string _ _ _ Hs),
              (stripped_string _ _ _ Hb).
      destruct (negb _ || negb _); discriminate.
    + discriminate.
    + intros H. injection H as ->. repeat split.
      exists data. repeat split; auto. now apply (scan_fields_raises _ _ _ _ S).
  - intros (Hcfg & Hjson & data & Hbody & T & Hbad).
    rewrite Hcfg, Hjson, Hbody, T. cbn [negb].
    destruct Hbad as [[Hno ->] | (members & field & -> & Hin & Hill & ->)].
    + unfold required_fields. now rewrite scan_fields_not_object.
    + now rewrite (scan_fields_ill_typed members required_fields [] field Hin Hill).
Qed.

End VerdictFacts.

(** ** Stripping twice *)

Section Strip.

Lemma lstrip_head (s : string) :
  match PyStr.lstrip s with
  | EmptyString => True
  | String c _ => PyStr.isspace c = false
  end.
Proof.
  induction s as [|c r IH]; cbn; [exact I|].
  destruct (PyStr.isspace c) eqn:Ec; [exact IH | exact Ec].
Qed.

Lemma rstrip_head (c : ascii) (r : string) :
  PyStr.isspace c = false -> exists r', PyStr.rstrip (String c r) = String c r'.
Proof.
  intros Ec. cbn. destruct (PyStr.rstrip r); [rewrite Ec|]; eauto.
Qed.

Lemma rstrip_cons (c : ascii) (r : string) :
  PyStr.rstrip (String c r) =
  match PyStr.rstrip r with
  | EmptyString => if PyStr.isspace c then EmptyString else String c EmptyString
  | r' => String c r'
  end.
Proof. reflexivity. Qed.

Lemma rstrip_rstrip (s : string) : PyStr.rstrip (PyStr.rstrip s) = PyStr.rstrip s.
Proof.
  induction s as [|c r IH]; [reflexivity|].
  rewrite rstrip_cons. destruct (PyStr.rstrip r) as [|d r'] eqn:Er.
  - destruct (PyStr.isspace c) eqn:Ec; [reflexivity|]. cbn. now rewrite Ec.
  - rewrite rstrip_cons, IH. reflexivity.
Qed.

(** [s.strip().strip() == s.strip()] *)
Lemma strip_strip (s : string) : PyStr.strip (PyStr.strip s) = PyStr.strip s.
Proof.
  unfold PyStr.strip.
  pose proof (lstrip_head s) as H.
  destruct (PyStr.lstrip s) as [|c r]; [reflexivity|].
  destruct (rstrip_head c r H) as [r' Hr]. rewrite Hr.
  cbn [PyStr.lstrip]. rewrite H, <- Hr. apply rstrip_rstrip.
Qed.

End Strip.

(** ** Answers *)

Lemma failure_response_cases (message : string) :
  exists label,
    (status (failure_response message) = 401 \/
     status (failure_response message) = 400 \/
     status (failure_response message) = 502) /\
    content (failure_response message)
    = JObject [ ("error", JString label); ("message", JString message) ].
Proof.
  unfold failure_response.
  destruct (PyStr.contains "Authentication" message);
    [|destruct (PyStr.contains "recipient" (PyStr.lower message))];
    eexists; split; cbn; eauto.
Qed.

(** X1.  The handler answers every request: it never raises.  The
    status is one of 200, 400, 401, 500 and 502 and the body is a JSON
    object, with ["status": "success"] and no ["error"] when the status
    is 200, and with an ["error"] string and no ["status"] otherwise. *)
Theorem every_request_is_answered
    (cfg : settings) (eta : env) (req : request) (w : world) :
  exists resp w' members,
    send_email cfg eta req w = (Ok resp, w') /\
    content resp = JObject members /\
    In (status resp) [200; 400; 401; 500; 502] /\
    if status resp =? 200
    then lookup "status" members = Some (JString "success") /\
         lookup "error" members = None
    else lookup "status" members = None /\
         exists label, lookup "error" members = Some (JString label).
Proof.
  rewrite send_email_by_verdict.
  destruct (verdict_of cfg req) as [| | | |e|fields| |r s b];
    try (do 3 eexists; split; [reflexivity|]; split; [reflexivity|];
         cbn; split; [auto 10|]; split; [reflexivity|]; eexists; reflexivity).
  destruct (session_raises (smtp eta (relay_calls w))) as [e|].
  - destruct (failure_response_cases (relay_message e)) as (label & Hst & Hc).
    do 3 eexists. split; [reflexivity|]. split; [exact Hc|].
    destruct Hst as [-> | [-> | ->]]; cbn; (split; [auto 10|]); split; eauto.
  - do 3 eexists. split; [reflexivity|]. split; [reflexivity|].
    cbn. split; [auto 10|]. split; reflexivity.
Qed.

(** X2.  A 200 answer is given only after the server accepted the
    message: the request carried the three fields, the outbox has grown
    by exactly the message built from their trimmed values and the
    configured sender, and the body names the trimmed recipient. *)
Theorem ok_means_delivered
    (cfg : settings) (eta : env) (req : request) (w w' : world) (resp : response) :
  send_email cfg eta req w = (Ok resp, w') ->
  status resp = 200 ->
  exists r0 s0 b0,
    carries req r0 s0 b0 /\
    outbox w' = (outbox w
                 ++ [Mail (GMAIL_EMAIL cfg) (PyStr.strip r0) (PyStr.strip s0)
                       (PyStr.strip b0)])%list /\
    relay_calls w' = S (relay_calls w) /\
    member "sent_to" resp = Some (JString (PyStr.strip r0)) /\
    member "subject" resp = Some (JString (PyStr.strip s0)).
Proof.
  rewrite send_email_by_verdict.
  destruct (verdict_of cfg req) as [| | | |e|fields| |r s b] eqn:V;
    try (intros H; injection H as <- <-; discriminate).
  apply verdict_relay in V
    as (_ & r0 & s0 & b0 & Hc & _ & _ & _ & _ & -> & -> & ->).
  destruct (session_raises (smtp eta (relay_calls w))) as [e|].
  - intros H Hst. injection H as <- <-.
    destruct (failure_response_cases (relay_message e)) as (_ & Hs & _).
    rewrite Hst in Hs. destruct Hs as [Hs|[Hs|Hs]]; discriminate Hs.
  - intros H _. injection H as <- <-.
    exists r0, s0, b0. split; [exact Hc|]. repeat split.
Qed.

Lemma ok_means_delivered_witness :
  exists r0 s0 b0,
    carries (Fixture.post (Fixture.letter " ann@example.org ")) r0 s0 b0 /\
    outbox (World 1 1 1 [Mail "sender@example.org" "ann@example.org" "Hello" "How are you?"] [])
    = (outbox Fixture.w0
       ++ [Mail (GMAIL_EMAIL Fixture.cfg) (PyStr.strip r0) (PyStr.strip s0)
             (PyStr.strip b0)])%list /\
    relay_calls (World 1 1 1 [Mail "sender@example.org" "ann@example.org" "Hello" "How are you?"] [])
    = S (relay_calls Fixture.w0) /\
    member "sent_to"
      (success_body Fixture.cfg "ann@example.org" "Hello"
         "00000000-0000-4000-8000-000000000000" Fixture.noon)
    = Some (JString (PyStr.strip r0)) /\
    member "subject"
      (success_body Fixture.cfg "ann@example.org" "Hello"
         "00000000-0000-4000-8000-000000000000" Fixture.noon)
    = Some (JString (PyStr.strip s0)).
Proof.
  apply (ok_means_delivered Fixture.cfg Fixture.eta
           (Fixture.post (Fixture.letter " ann@example.org ")) Fixture.w0).
  - vm_compute. reflexivity.
  - reflexivity.
Defined.

Lemma validate_true_credentials (cfg : settings) :
  fst (validate_email_config cfg) = true ->
  GMAIL_EMAIL cfg <> "" /\ GMAIL_APP_PASSWORD cfg <> "".
Proof.
  unfold validate_email_config.
  destruct (GMAIL_EMAIL cfg), (GMAIL_APP_PASSWORD cfg); cbn;
    (discriminate || (intros _; split; discriminate)).
Qed.

(** X3.  One request puts at most one message into the outbox, and
    only a message a configured sender can send: from [GMAIL_EMAIL],
    with credentials present, and with a recipient, a subject and a text
    that are not empty, have no white space at either end, and, for the
    recipient, hold an at sign and a dot. *)
Theorem outbox_grows_by_valid_mail
    (cfg : settings) (eta : env) (req : request) (w : world) :
  let w' := snd (send_email cfg eta req w) in
  outbox w' = outbox w \/
  exists m,
    outbox w' = (outbox w ++ [m])%list /\
    mail_from m = GMAIL_EMAIL cfg /\
    GMAIL_EMAIL cfg <> "" /\ GMAIL_APP_PASSWORD cfg <> "" /\
    mail_to m <> "" /\ mail_subject m <> "" /\ mail_body m <> "" /\
    trimmed (mail_to m) /\ trimmed (mail_subject m) /\ trimmed (mail_body m) /\
    PyStr.contains "@" (mail_to m) = true /\
    PyStr.contains "." (mail_to m) = true.
Proof.
  cbv zeta. rewrite send_email_by_verdict.
  destruct (verdict_of cfg req) as [| | | |e|fields| |r s b] eqn:V;
    try (left; reflexivity).
  apply verdict_relay in V
    as (Hcfg & r0 & s0 & b0 & _ & Nr & Ns & Nb & Hshape & -> & -> & ->).
  assert (Hm : exists m,
             (outbox w ++ [Mail (GMAIL_EMAIL cfg) (PyStr.strip r0) (PyStr.strip s0)
                             (PyStr.strip b0)])%list
             = (outbox w ++ [m])%list /\
             mail_from m = GMAIL_EMAIL cfg /\
             GMAIL_EMAIL cfg <> "" /\ GMAIL_APP_PASSWORD cfg <> "" /\
             mail_to m <> "" /\ mail_subject m <> "" /\ mail_body m <> "" /\
             trimmed (mail_to m) /\ trimmed (mail_subject m) /\ trimmed (mail_body m) /\
             PyStr.contains "@" (mail_to m) = true /\
             PyStr.contains "." (mail_to m) = true).
  { destruct (validate_true_credentials cfg Hcfg) as [He Hp].
    unfold email_shaped in Hshape. apply andb_true_iff in Hshape as [Hat Hdot].
    eexists. split; [reflexivity|]. cbn [mail_from mail_to mail_subject mail_body].
    unfold trimmed. rewrite !strip_strip. repeat split; assumption. }
  destruct (session_raises (smtp eta (relay_calls w))) as [e|]; cbn [snd].
  - destruct (accepted (smtp eta (relay_calls w))); [right; exact Hm | left; reflexivity].
  - right. exact Hm.
Qed.

Lemma accepted_session_raises (s : session) :
  accepted s = true -> session_raises s = quit_raises s.
Proof.
  unfold accepted, session_raises. cbn [first_raise].
  destruct (on_build s); [discriminate|].
  destruct (on_connect s); [discriminate|].
  destruct (on_starttls s); [discriminate|].
  destruct (on_login s); [discriminate|].
  destruct (on_as_string s); [discriminate|].
  destruct (on_sendmail s); [discriminate|].
  intros _. destruct (quit_raises s); reflexivity.
Qed.

(** X4.  Once the server has accepted the message, the answer is
    decided by the QUIT that leaving the [with] block sends.  The
    message is in the outbox and an identifier has been drawn either
    way; the answer is 200 exactly when QUIT succeeds or the server has
    already hung up, and otherwise a failure built from the exception
    of QUIT. *)
Theorem answer_after_delivery
    (cfg : settings) (eta : env) (req : request) (r0 s0 b0 : string) (w : world) :
  fst (validate_email_config cfg) = true ->
  carries req r0 s0 b0 ->
  nonblank r0 -> nonblank s0 -> nonblank b0 ->
  email_shaped (PyStr.strip r0) = true ->
  accepted (smtp eta (relay_calls w)) = true ->
  exists resp w',
    send_email cfg eta req w = (Ok resp, w') /\
    outbox w' = (outbox w
                 ++ [Mail (GMAIL_EMAIL cfg) (PyStr.strip r0) (PyStr.strip s0)
                       (PyStr.strip b0)])%list /\
    draws w' = S (draws w) /\
    (status resp = 200 <-> quit_raises (smtp eta (relay_calls w)) = None) /\
    (forall e, quit_raises (smtp eta (relay_calls w)) = Some e ->
               resp = failure_response (relay_message e)).
Proof.
  intros Hcfg Hc Nr Ns Nb Hshape Hacc.
  assert (V : verdict_of cfg req
              = Relay (PyStr.strip r0) (PyStr.strip s0) (PyStr.strip b0)).
  { apply verdict_relay. split; [assumption|]. exists r0, s0, b0. repeat split; auto;
      apply Hc. }
  rewrite send_email_by_verdict, V, Hacc, (accepted_session_raises _ Hacc).
  destruct (quit_raises (smtp eta (relay_calls w))) as [e|].
  - do 2 eexists. split; [reflexivity|]. split; [reflexivity|]. split; [reflexivity|].
    split.
    + split; [|discriminate]. intros Hst.
      destruct (failure_response_cases (relay_message e)) as (_ & Hs & _).
      rewrite Hst in Hs. destruct Hs as [Hs|[Hs|Hs]]; discriminate Hs.
    + intros e' H. now injection H as <-.
  - do 2 eexists. split; [reflexivity|]. split; [reflexivity|]. split; [reflexivity|].
    split; [split; reflexivity | discriminate].
Qed.

Lemma answer_after_delivery_witness :
  let eta := Env Fixture.bytes_of_index (fun _ => Fixture.noon)
               (fun _ => Session None None None None None None
                           (Some (Exn SMTPResponseException "(421, b'closing')"))) in
  exists resp w',
    send_email Fixture.cfg eta (Fixture.post (Fixture.letter " ann@example.org "))
      Fixture.w0 = (Ok resp, w') /\
    outbox w' = (outbox Fixture.w0
                 ++ [Mail (GMAIL_EMAIL Fixture.cfg) (PyStr.strip " ann@example.org ")
                       (PyStr.strip " Hello ") (PyStr.strip "How are you?")])%list /\
    draws w' = S (draws Fixture.w0) /\
    (status resp = 200 <-> quit_raises (smtp eta (relay_calls Fixture.w0)) = None) /\
    (forall e, quit_raises (smtp eta (relay_calls Fixture.w0)) = Some e ->
               resp = failure_response (relay_message e)).
Proof.
  intros eta.
  apply (answer_after_delivery Fixture.cfg eta
           (Fixture.post (Fixture.letter " ann@example.org "))
           " ann@example.org " " Hello " "How are you?" Fixture.w0).
  - reflexivity.
  - split; [reflexivity|]. eexists. repeat split; reflexivity.
  - vm_compute. discriminate.
  - vm_compute. discriminate.
  - vm_compute. discriminate.
  - reflexivity.
  - reflexivity.
Defined.

(** ** Relay messages under the handler's two tests *)

Section Messages.

(** The prefix of a category decides the tests only for the first two
    categories; for the others the text of the exception decides. *)
Lemma authentication_in_message (e : exn) :
  PyStr.contains "Authentication" (relay_message e) =
  match categorise e with
  | AuthenticationFailure => true
  | _ => PyStr.contains "Authentication" (exn_str e)
  end.
Proof.
  unfold relay_message. destruct (categorise e); reflexivity.
Qed.

Lemma recipient_in_message (e : exn) :
  PyStr.contains "recipient" (PyStr.lower (relay_message e)) =
  match categorise e with
  | RecipientRejected => true
  | _ => PyStr.contains "recipient" (PyStr.lower (exn_str e))
  end.
Proof.
  unfold relay_message. destruct (categorise e); reflexivity.
Qed.

End Messages.

(** X5.  The status of a relay failure by the category of its
    exception.  An authentication error is always answered 401.  A
    refused recipient is answered 400 unless the text of the exception
    holds "Authentication", which turns it into 401.  Any other failure
    is answered 401 when its text holds "Authentication", else 400 when
    its text holds "recipient" in any case, else 502.  The body carries
    the relay's message. *)
Theorem status_by_category
    (cfg : settings) (eta : env) (req : request) (r0 s0 b0 : string) (w : world)
    (e : exn) :
  fst (validate_email_config cfg) = true ->
  carries req r0 s0 b0 ->
  nonblank r0 -> nonblank s0 -> nonblank b0 ->
  email_shaped (PyStr.strip r0) = true ->
  session_raises (smtp eta (relay_calls w)) = Some e ->
  exists resp w' label,
    send_email cfg eta req w = (Ok resp, w') /\
    content resp = JObject [ ("error", JString label);
                             ("message", JString (relay_message e)) ] /\
    status resp =
    match categorise e with
    | AuthenticationFailure => 401
    | RecipientRejected =>
        if PyStr.contains "Authentication" (exn_str e) then 401 else 400
    | _ =>
        if PyStr.contains "Authentication" (exn_str e) then 401
        else if PyStr.contains "recipient" (PyStr.lower (exn_str e)) then 400
        else 502
    end.
Proof.
  intros Hcfg Hc Nr Ns Nb Hshape Hraise.
  assert (V : verdict_of cfg req
              = Relay (PyStr.strip r0) (PyStr.strip s0) (PyStr.strip b0)).
  { apply verdict_relay. split; [assumption|]. exists r0, s0, b0. repeat split; auto;
      apply Hc. }
  rewrite send_email_by_verdict, V, Hraise.
  unfold failure_response.
  rewrite authentication_in_message, recipient_in_message.
  destruct (categorise e);
    repeat match goal with
           | |- context [if ?b then _ else _] => destruct b
           end;
    do 3 eexists; repeat split.
Qed.

Lemma status_by_category_witness :
  let e := Exn SMTPRecipientsRefused "{'x@y.z': (550, b'Authentication required')}" in
  exists resp w' label,
    send_email Fixture.cfg (Fixture.eta_refusing e)
      (Fixture.post (Fixture.letter " ann@example.org ")) Fixture.w0 = (Ok resp, w') /\
    content resp = JObject [ ("error", JString label);
                             ("message", JString (relay_message e)) ] /\
    status resp = 401.
Proof.
  intros e.
  apply (status_by_category Fixture.cfg (Fixture.eta_refusing e)
           (Fixture.post (Fixture.letter " ann@example.org "))
           " ann@example.org " " Hello " "How are you?" Fixture.w0 e).
  - reflexivity.
  - split; [reflexivity|]. eexists. repeat split; reflexivity.
  - vm_compute. discriminate.
  - vm_compute. discriminate.
  - vm_compute. discriminate.
  - reflexivity.
  - reflexivity.
Defined.

Section Caught.

Variable cfg : settings.
Variable req : request.

Lemma verdict_unparseable :
  verdict_of cfg req = Unparseable <->
  fst (validate_email_config cfg) = true /\ is_json req = true /\
  body req = Malformed.
Proof.
  unfold verdict_of. split.
  - destruct (fst (validate_email_config cfg)); [|discriminate].
    destruct (is_json req); [|discriminate].
    destruct (body req) as [|data]; [auto|].
    cbn [negb]. destruct (truthy data); cbn [negb]; [|discriminate].
    destruct (scan_fields data required_fields []) as [[|? ?]|?];
      try discriminate.
    destruct (stripped data "receiver_email"), (stripped data "subject"),
      (stripped data "body_text"); try discriminate.
    destruct (negb _ || negb _); discriminate.
  - intros (-> & -> & ->). reflexivity.
Qed.

(** The requests the handler's own statements raise on. *)
Lemma verdict_caught :
  (verdict_of cfg req = Unparseable \/ exists e, verdict_of cfg req = Violation e) <->
  fst (validate_email_config cfg) = true /\ is_json req = true /\
  (body req = Malformed \/
   exists data,
     body req = Parsed data /\ truthy data = true /\
     (is_object data = false \/
      exists members field,
        data = JObject members /\ In field required_fields /\
        ill_typed members field = true)).
Proof.
  split.
  - intros [H | [e H]].
    + apply verdict_unparseable in H as (? & ? & ?). auto.
    + apply verdict_violation in H as (Hcfg & Hjson & data & Hb & T & Hbad).
      repeat split; auto. right. exists data. repeat split; auto.
      destruct Hbad as [[Hno _] | (members & field & Hd & Hin & Hill & _)];
        [now left | right; eauto].
  - intros (Hcfg & Hjson & [Hb | (data & Hb & T & Hbad)]).
    + left. now apply verdict_unparseable.
    + right. destruct Hbad as [Hno | (members & field & Hd & Hin & Hill)].
      * exists no_get. apply verdict_violation. repeat split; auto.
        exists data. repeat split; auto.
      * exists no_strip. apply verdict_violation. repeat split; auto.
        exists data. repeat split; auto. right. eauto 8.
Qed.

End Caught.

(** X6.  The catch-all answers, with 500 "Internal server error",
    exactly the requests that pass the configuration and content-type
    checks and whose body does not parse, parses to a truthy value that
    is not an object, or is an object with a required field holding a
    truthy value that is not a string.  A traceback is printed with that
    answer and with no other, and the exception is a [BadRequest] or an
    [AttributeError]. *)
Theorem catch_all_exactly
    (cfg : settings) (eta : env) (req : request) (w : world) :
  ((exists e, send_email cfg eta req w = (Ok internal_error, after_print w e)) <->
   fst (validate_email_config cfg) = true /\ is_json req = true /\
   (body req = Malformed \/
    exists data,
      body req = Parsed data /\ truthy data = true /\
      (is_object data = false \/
       exists members field,
         data = JObject members /\ In field required_fields /\
         ill_typed members field = true)))
  /\
  (printed (snd (send_email cfg eta req w)) = printed w \/
   exists e,
     (exn_class e = BadRequest \/ exn_class e = AttributeError) /\
     send_email cfg eta req w = (Ok internal_error, after_print w e)).
Proof.
  rewrite <- verdict_caught, send_email_by_verdict.
  assert (Hst : forall (r : response) (w1 w2 : world),
             status r <> 500 -> (Ok r, w1) <> (Ok internal_error, w2)).
  { intros r w1 w2 Hr H. injection H as H _. apply Hr. now rewrite H. }
  destruct (verdict_of cfg req) as [| | | |e|fields| |r s b] eqn:V.
  - split; [|left; reflexivity]. split.
    + intros [e H]. apply (f_equal fst) in H. vm_compute in H. discriminate H.
    + intros [H | [e H]]; discriminate H.
  - split; [|left; reflexivity]. split.
    + intros [e H]. now apply Hst in H.
    + intros [H | [e H]]; discriminate H.
  - split; [split; eauto|].
    right. exists bad_request. split; [now left | reflexivity].
  - split; [|left; reflexivity]. split.
    + intros [e H]. now apply Hst in H.
    + intros [H | [e H]]; discriminate H.
  - split; [split; eauto|].
    right. exists e. split; [|reflexivity]. right.
    apply verdict_violation in V as (_ & _ & data & _ & _ & Hbad).
    destruct Hbad as [[_ He] | (? & ? & _ & _ & _ & He)]; rewrite He; reflexivity.
  - split; [|left; reflexivity]. split.
    + intros [e H]. now apply Hst in H.
    + intros [H | [e H]]; discriminate H.
  - split; [|left; reflexivity]. split.
    + intros [e H]. now apply Hst in H.
    + intros [H | [e H]]; discriminate H.
  - destruct (session_raises (smtp eta (relay_calls w))) as [e|].
    + split.
      * split; [|intros [H | [e' H]]; discriminate H].
        intros [e' H]. apply Hst in H; [destruct H|].
        destruct (failure_response_cases (relay_message e)) as (_ & Hs & _).
        intros H5. rewrite H5 in Hs. destruct Hs as [Hs|[Hs|Hs]]; discriminate Hs.
      * left. cbn [snd]. destruct (accepted _); reflexivity.
    + split; [|left; reflexivity].
      split; [|intros [H | [e' H]]; discriminate H].
      intros [e' H]. now apply Hst in H.
Qed.

(** ** The two endpoints *)

Lemma home_reports_config_body (cfg : settings) (eta : env) (w : world) :
  exists members,
    home cfg eta w = (Ok (Response 200 (JObject members)), after_tick w) /\
    lookup "email_config_valid" members
    = Some (JBool (fst (validate_email_config cfg))).
Proof.
  unfold home. destruct (validate_email_config cfg) as [valid msg].
  eexists. split; reflexivity.
Qed.

(** X7.  The liveness endpoint and the sending endpoint agree on the
    configuration: [GET /] reports [email_config_valid] false exactly
    when every [POST /send-email], whatever it carries, is answered 500
    "Server configuration error" with nothing else done. *)
Theorem health_check_agrees (cfg : settings) (eta : env) (w0 : world) :
  (exists members,
      home cfg eta w0 = (Ok (Response 200 (JObject members)), after_tick w0) /\
      lookup "email_config_valid" members = Some (JBool false))
  <->
  (forall (req : request) (w : world),
      send_email cfg eta req w =
      (Ok (Response 500
             (JObject [ ("error", JString "Server configuration error");
                        ("message", JString config_missing_msg) ])), w)).
Proof.
  split.
  - intros (members & Hhome & Hvalid) req w.
    destruct (home_reports_config_body cfg eta w0) as (ms & Hh & Hl).
    rewrite Hhome in Hh. injection Hh as ->. rewrite Hvalid in Hl.
    injection Hl as Hcfg. symmetry in Hcfg.
    now apply send_email_config_invalid.
  - intros H.
    destruct (home_reports_config_body cfg eta w0) as (ms & Hh & Hl).
    exists ms. split; [assumption|]. rewrite Hl.
    destruct (fst (validate_email_config cfg)) eqn:Hcfg; [|reflexivity].
    specialize (H (Request false Malformed) w0).
    rewrite (send_email_not_json cfg eta (Request false Malformed) w0 Hcfg eq_refl) in H.
    apply (f_equal fst) in H. vm_compute in H. discriminate H.
Qed.

(** ** Requests that carry the three fields as strings *)

Section Carried.

Variable cfg : settings.

(** The fields reported missing, from the trimmed values. *)
Lemma scan_fields_carried (members : list (string * json)) (r0 s0 b0 : string) :
  lookup "receiver_email" members = Some (JString r0) ->
  lookup "subject" members = Some (JString s0) ->
  lookup "body_text" members = Some (JString b0) ->
  scan_fields (JObject members) required_fields [] =
  Ok ((if PyStr.truthy (PyStr.strip r0) then [] else ["receiver_email"])
      ++ (if PyStr.truthy (PyStr.strip s0) then [] else ["subject"])
      ++ (if PyStr.truthy (PyStr.strip b0) then [] else ["body_text"]))%list.
Proof.
  intros Hr Hs Hb.
  rewrite scan_fields_well_typed
    by (unfold required_fields; cbn [forallb]; unfold ill_typed;
        now rewrite Hr, Hs, Hb).
  unfold required_fields. cbn [filter app]. unfold absent_or_blank.
  rewrite Hr, Hs, Hb, !strip_truthy.
  destruct (PyStr.blank r0), (PyStr.blank s0), (PyStr.blank b0); reflexivity.
Qed.

Lemma verdict_carried (req : request) (r0 s0 b0 : string) :
  fst (validate_email_config cfg) = true ->
  carries req r0 s0 b0 ->
  verdict_of cfg req =
  match ((if PyStr.truthy (PyStr.strip r0) then [] else ["receiver_email"])
         ++ (if PyStr.truthy (PyStr.strip s0) then [] else ["subject"])
         ++ (if PyStr.truthy (PyStr.strip b0) then [] else ["body_text"]))%list with
  | [] =>
      if negb (PyStr.contains "@" (PyStr.strip r0))
         || negb (PyStr.contains "." (PyStr.strip r0))
      then BadShape
      else Relay (PyStr.strip r0) (PyStr.strip s0) (PyStr.strip b0)
  | f :: rest => Missing (f :: rest)
  end.
Proof.
  intros Hcfg (Hjson & members & Hbody & Hr & Hs & Hb).
  unfold verdict_of. rewrite Hcfg, Hjson, Hbody. cbn [negb].
  rewrite (lookup_nonempty _ _ _ Hr). cbn [negb].
  rewrite (scan_fields_carried members r0 s0 b0 Hr Hs Hb).
  rewrite (stripped_string _ _ _ Hr), (stripped_string _ _ _ Hs),
          (stripped_string _ _ _ Hb).
  reflexivity.
Qed.

End Carried.

(** X8.  For requests that carry the three fields as strings, the
    answer and the effect depend on the trimmed values of the fields
    and on nothing else in the body: white space around a value, other
    members and the order of the members make no difference. *)
Theorem answer_depends_on_trimmed_fields
    (cfg : settings) (eta : env) (req req' : request)
    (r s b r' s' b' : string) (w : world) :
  carries req r s b ->
  carries req' r' s' b' ->
  PyStr.strip r = PyStr.strip r' ->
  PyStr.strip s = PyStr.strip s' ->
  PyStr.strip b = PyStr.strip b' ->
  send_email cfg eta req w = send_email cfg eta req' w.
Proof.
  intros Hc Hc' Hr Hs Hb.
  rewrite !send_email_by_verdict.
  destruct (fst (validate_email_config cfg)) eqn:Hcfg.
  - rewrite (verdict_carried cfg req r s b Hcfg Hc),
            (verdict_carried cfg req' r' s' b' Hcfg Hc'), Hr, Hs, Hb.
    reflexivity.
  - unfold verdict_of. rewrite Hcfg. reflexivity.
Qed.

Lemma answer_depends_on_trimmed_fields_witness :
  send_email Fixture.cfg Fixture.eta
    (Fixture.post (Fixture.letter " ann@example.org ")) Fixture.w0
  = send_email Fixture.cfg Fixture.eta
      (Fixture.post (JObject [ ("cc", JString "bob@example.org");
                               ("body_text", JString "  How are you?");
                               ("subject", JString "Hello");
                               ("receiver_email", JString "ann@example.org") ]))
      Fixture.w0.
Proof.
  apply (answer_depends_on_trimmed_fields Fixture.cfg Fixture.eta _ _
           " ann@example.org " " Hello " "How are you?"
           "ann@example.org" "Hello" "  How are you?").
  - split; [reflexivity|]. eexists. repeat split; reflexivity.
  - split; [reflexivity|]. eexists. repeat split; reflexivity.
  - reflexivity.
  - reflexivity.
  - reflexivity.
Defined.

(** X9.  The configuration as loaded validates exactly when an app
    password that is not empty is found in the environment or the
    repository and the sender address found there, if any, is not
    empty: an unset [GMAIL_APP_PASSWORD] invalidates the configuration,
    an unset [GMAIL_EMAIL] does not, since the default address stands
    in for it. *)
Theorem loaded_config_valid
    (environ repository : string -> option string) (port : Z) :
  fst (validate_email_config (load_settings environ repository port)) = true <->
  (exists p, found environ repository "GMAIL_APP_PASSWORD" = Some p /\ p <> "") /\
  found environ repository "GMAIL_EMAIL" <> Some "".
Proof.
  unfold validate_email_config, load_settings, config, found.
  cbn [GMAIL_EMAIL GMAIL_APP_PASSWORD].
  destruct (environ "GMAIL_EMAIL") as [[|c1 e1]|];
    [| |destruct (repository "GMAIL_EMAIL") as [[|c1 e1]|]];
    (destruct (environ "GMAIL_APP_PASSWORD") as [[|c2 p2]|];
     [| |destruct (repository "GMAIL_APP_PASSWORD") as [[|c2 p2]|]]);
    cbn; split;
    try discriminate;
    try (intros _; split; [eexists; split; [reflexivity|discriminate]|discriminate]);
    try (intros [(p & Hp & Hne) Hs]; try discriminate Hp;
         try (injection Hp as <-; congruence); try congruence);
    try reflexivity.
Qed.

(** X10.  The relay client always returns.  It counts as one call,
    reads no clock and prints nothing.  The message handed to the server
    is made of the arguments as they are, from [GMAIL_EMAIL]; it reaches
    the outbox, and an identifier is drawn, exactly when every call up
    to [sendmail] returned, and never otherwise; a successful result
    implies that it did. *)
Theorem relay_effects
    (cfg : settings) (eta : env) (receiver_email subject body_text : string)
    (w : world) :
  exists success message email_id w',
    send_email_smtp cfg eta receiver_email subject body_text w
    = (Ok (success, message, email_id), w') /\
    relay_calls w' = S (relay_calls w) /\
    ticks w' = ticks w /\ printed w' = printed w /\
    (if accepted (smtp eta (relay_calls w))
     then outbox w' = (outbox w
                       ++ [Mail (GMAIL_EMAIL cfg) receiver_email subject body_text])%list
          /\ draws w' = S (draws w)
     else outbox w' = outbox w /\ draws w' = draws w /\ success = false).
Proof.
  rewrite send_email_smtp_run.
  destruct (session_raises (smtp eta (relay_calls w))) as [e|] eqn:R.
  - do 4 eexists. split; [reflexivity|].
    destruct (accepted (smtp eta (relay_calls w))); repeat split.
  - assert (Hacc : accepted (smtp eta (relay_calls w)) = true).
    { unfold session_raises, accepted in *. cbn [first_raise] in *.
      destruct (on_build _); [discriminate|].
      destruct (on_connect _); [discriminate|].
      destruct (quit_raises _); [discriminate|].
      now rewrite R. }
    rewrite Hacc. do 4 eexists. repeat split.
Qed.

(** X11.  The relay is called at most once for a request, and exactly
    for the requests that pass every check: a valid configuration and a
    body carrying the three fields as strings that are not blank, the
    recipient holding an at sign and a dot once trimmed. *)
Theorem relay_called_exactly
    (cfg : settings) (eta : env) (req : request) (w : world) :
  let w' := snd (send_email cfg eta req w) in
  (relay_calls w' = relay_calls w \/ relay_calls w' = S (relay_calls w)) /\
  (relay_calls w' = S (relay_calls w) <->
   fst (validate_email_config cfg) = true /\
   exists r0 s0 b0,
     carries req r0 s0 b0 /\ nonblank r0 /\ nonblank s0 /\ nonblank b0 /\
     email_shaped (PyStr.strip r0) = true).
Proof.
  cbv zeta. rewrite send_email_by_verdict.
  assert (Hno : forall v,
             verdict_of cfg req = v ->
             (forall r s b, v <> Relay r s b) ->
             ~ (fst (validate_email_config cfg) = true /\
                exists r0 s0 b0,
                  carries req r0 s0 b0 /\ nonblank r0 /\ nonblank s0 /\ nonblank b0 /\
                  email_shaped (PyStr.strip r0) = true)).
  { intros v Hv Hne (Hcfg & r0 & s0 & b0 & Hc & Nr & Ns & Nb & Hshape).
    apply (Hne (PyStr.strip r0) (PyStr.strip s0) (PyStr.strip b0)).
    rewrite <- Hv. apply verdict_relay. split; [assumption|].
    exists r0, s0, b0. repeat split; auto; apply Hc. }
  destruct (verdict_of cfg req) as [| | | |e|fields| |r s b] eqn:V;
    try (split; [left; reflexivity|];
         split; [cbn; intros H; exfalso; revert H; apply n_Sn
                | intros H; exfalso; revert H; apply (Hno _ eq_refl); discriminate]).
  assert (Hw : forall w1,
             w1 = after_tick (after_delivery w (Mail (GMAIL_EMAIL cfg) r s b)) \/
             w1 = after_delivery w (Mail (GMAIL_EMAIL cfg) r s b) \/
             w1 = after_attempt w ->
             relay_calls w1 = S (relay_calls w)).
  { intros w1 [-> | [-> | ->]]; reflexivity. }
  apply verdict_relay in V
    as (Hcfg & r0 & s0 & b0 & Hc & Nr & Ns & Nb & Hshape & _).
  assert (Hs : relay_calls
                 (snd match session_raises (smtp eta (relay_calls w)) with
                      | Some e =>
                          (Ok (failure_response (relay_message e)),
                           if accepted (smtp eta (relay_calls w))
                           then after_delivery w (Mail (GMAIL_EMAIL cfg) r s b)
                           else after_attempt w)
                      | None =>
                          (Ok (success_body cfg r s
                                 (uuid_str (uuid4_int (draw eta (draws w))))
                                 (clock eta (ticks w))),
                           after_tick (after_delivery w (Mail (GMAIL_EMAIL cfg) r s b)))
                      end) = S (relay_calls w)).
  { apply Hw. destruct (session_raises _); cbn [snd]; auto.
    destruct (accepted _); auto. }
  split; [right; exact Hs|]. split; [|intros _; exact Hs].
  intros _. split; [assumption|]. exists r0, s0, b0. repeat split; auto; apply Hc.
Qed.

(* ================================================================= *)
(** * The validator on the configuration as loaded *)

(** C10, as stated, fails: in a deployment that sets only the app
    password the sender address is unset, yet [GMAIL_EMAIL] falls back
    to its default, the validator accepts, and [GET /] reports
    [email_config_valid] true. *)
Lemma unset_sender_counterexample :
  found password_only no_file "GMAIL_EMAIL" = None /\
  fst (validate_email_config (load_settings password_only no_file 587)) = true /\
  home (load_settings password_only no_file 587) Fixture.eta Fixture.w0 =
  (Ok (Response 200
         (JObject [ ("service", JString "Email Sending API");
                    ("version", JString "1.0.0");
                    ("status", JString "running");
                    ("email_config_valid", JBool true);
                    ("timestamp", JString "2024-03-09T12:00:00") ])),
   after_tick Fixture.w0).
Proof. repeat split. Qed.

(** C10, amended.  [GET /] answers 200 in every configuration state,
    and its [email_config_valid] is the validator's verdict.  The
    verdict is false exactly when the sender address or the app password
    is, as loaded, the empty string: the password when
    [GMAIL_APP_PASSWORD] is unset or set to the empty string, the sender
    only when [GMAIL_EMAIL] is set to the empty string, an unset
    [GMAIL_EMAIL] being replaced by the default address. *)
Theorem home_reports_loaded_config :
  (forall (cfg : settings) (eta : env) (w : world),
      exists members,
        home cfg eta w = (Ok (Response 200 (JObject members)), after_tick w) /\
        lookup "email_config_valid" members
        = Some (JBool (fst (validate_email_config cfg))) /\
        (fst (validate_email_config cfg) = false <->
         GMAIL_EMAIL cfg = "" \/ GMAIL_APP_PASSWORD cfg = ""))
  /\
  (forall (environ repository : string -> option string) (port : Z),
      (GMAIL_EMAIL (load_settings environ repository port) = "" <->
       found environ repository "GMAIL_EMAIL" = Some "") /\
      (GMAIL_APP_PASSWORD (load_settings environ repository port) = "" <->
       found environ repository "GMAIL_APP_PASSWORD" = None \/
       found environ repository "GMAIL_APP_PASSWORD" = Some "") /\
      (fst (validate_email_config (load_settings environ repository port)) = false <->
       found environ repository "GMAIL_EMAIL" = Some "" \/
       found environ repository "GMAIL_APP_PASSWORD" = None \/
       found environ repository "GMAIL_APP_PASSWORD" = Some "")).
Proof.
  split; [exact home_reports_config|].
  intros environ repository port.
  assert (He : GMAIL_EMAIL (load_settings environ repository port) = "" <->
               found environ repository "GMAIL_EMAIL" = Some "").
  { unfold load_settings, config, found. cbn [GMAIL_EMAIL].
    destruct (environ "GMAIL_EMAIL") as [v|];
      [|destruct (repository "GMAIL_EMAIL") as [v|]];
      split; intros H; try discriminate H; congruence. }
  assert (Hp : GMAIL_APP_PASSWORD (load_settings environ repository port) = "" <->
               found environ repository "GMAIL_APP_PASSWORD" = None \/
               found environ repository "GMAIL_APP_PASSWORD" = Some "").
  { unfold load_settings, config, found. cbn [GMAIL_APP_PASSWORD].
    destruct (environ "GMAIL_APP_PASSWORD") as [v|];
      [|destruct (repository "GMAIL_APP_PASSWORD") as [v|]];
      split; intros H; auto; try (right; congruence);
      destruct H as [H|H]; congruence. }
  split; [exact He|]. split; [exact Hp|].
  destruct (home_reports_config (load_settings environ repository port)
              Fixture.eta Fixture.w0) as (_ & _ & _ & Hv).
  rewrite Hv, He, Hp. reflexivity.
Qed.


(** ** The body check *)

Lemma answers_differ (r1 r2 : response) (w1 w2 : world) :
  status r1 <> status r2 \/ content r1 <> content r2 ->
  (Ok r1, w1) <> (Ok r2, w2).
Proof.
  intros Hd H. injection H as H _. rewrite H in Hd. destruct Hd as [Hd|Hd]; now apply Hd.
Qed.

Lemma verdict_nobody (cfg : settings) (req : request) :
  verdict_of cfg req = NoBody <->
  fst (validate_email_config cfg) = true /\ is_json req = true /\
  exists data, body req = Parsed data /\ truthy data = false.
Proof.
  unfold verdict_of. split.
  - destruct (fst (validate_email_config cfg)); cbn [negb]; [|discriminate].
    destruct (is_json req); cbn [negb]; [|discriminate].
    destruct (body req) as [|data]; [discriminate|].
    destruct (truthy data) eqn:T; cbn [negb];
      [|intros _; repeat split; exists data; split; [reflexivity | exact T]].
    destruct (scan_fields data required_fields []) as [[|? ?]|?];
      try discriminate.
    destruct (stripped data "receiver_email"), (stripped data "subject"),
      (stripped data "body_text"); try discriminate.
    destruct (negb _ || negb _); discriminate.
  - intros (-> & -> & data & -> & ->). reflexivity.
Qed.

(** The answer 400 "Request body is required" is given exactly when the
    configuration is valid, the content type is JSON and the body
    parses to a falsy value ([null], [false], zero, an empty string,
    array or object): a body that is empty or does not parse never gets
    it. *)
Lemma body_required_exactly
    (cfg : settings) (eta : env) (req : request) (w : world) :
  send_email cfg eta req w =
  (Ok (Response 400 (JObject [ ("error", JString "Request body is required") ])), w)
  <->
  fst (validate_email_config cfg) = true /\ is_json req = true /\
  exists data, body req = Parsed data /\ truthy data = false.
Proof.
  rewrite <- verdict_nobody, send_email_by_verdict.
  destruct (verdict_of cfg req) as [| | | |e|fields| |r s b];
    try (split; [intros H; exfalso; revert H; apply answers_differ;
                 ((left; cbn; discriminate) || (right; cbn; discriminate))
                | discriminate]).
  - split; reflexivity.
  - split; [|discriminate]. intros H. exfalso. revert H.
    destruct (session_raises (smtp eta (relay_calls w))) as [e|];
      apply answers_differ.
    + right. destruct (failure_response_cases (relay_message e)) as (label & _ & ->).
      discriminate.
    + left. cbn. discriminate.
Qed.
